(** * DataToken asset service: a shallow embedding of
      [datatoken/service/asset.py] and the properties of its operations.

    [AssetService] sequences calls to its collaborators (the verifier, the
    ledger's [dt_factory] and [asset_provider], the IPFS provider, the asset
    resolver and the tracer).  Every method is embedded as a program over
    those calls: a tree whose nodes are the calls the method makes, in the
    order it makes them, and whose leaves are the value it returns or the
    exception it raises.  Running a program against an oracle for the
    collaborators yields the list of calls made and the outcome. *)

From stdpp Require Import base option list strings pretty gmap.

Open Scope string_scope.
Open Scope list_scope.

(** ** Data model *)

Definition DT := string.          (* a token identifier, human-readable form *)
Definition TokenId := string.     (* the same identifier in the ledger's form *)
Definition Address := string.
Definition Signature := string.
Definition Checksum := string.
Definition IpfsPath := string.
Definition Wallet := string.      (* an account handle used to sign ledger calls *)

(** Free-form Python values held in metadata, attributes and constraints. *)
#[warnings="-register-all"]
Inductive pyval : Type :=
| VNone
| VBool (b : bool)
| VInt (z : Z)
| VStr (s : string)
| VDict (items : list (string * pyval)).

(** [d.get(key)]: the value under [key], [None] when the key is absent. *)
Definition py_get (d : gmap string pyval) (key : string) : pyval :=
  default VNone (d !! key).

(** [v != s] for a string literal [s]. *)
Definition py_ne_str (v : pyval) (s : string) : bool :=
  match v with
  | VStr t => negb (String.eqb t s)
  | _ => true
  end.

(** [bool(l)] for a Python list. *)
Definition py_bool {A} (l : list A) : bool :=
  match l with
  | [] => false
  | _ :: _ => true
  end.

(** Modelled from the spec: the service classes are missing from the
    sources.  An entry of a workflow maps a child token to the service used
    on it and a constraint, [{service, constraint}]. *)
Record WorkflowEntry := {
  wf_service : string;
  wf_constraint : pyval
}.

(** Modelled from the spec: the descriptor of a service is either a
    [{template, constraint}] pair, for a leaf token, or a [{workflow}] map
    from child token to entry, for a composite token. *)
Inductive Descriptor : Type :=
| TemplateDescriptor (template : string) (constraint : pyval)
| WorkflowDescriptor (workflow : gmap DT WorkflowEntry).

Module Service.

(** Modelled from the spec: a service has an [index], an [endpoint], a
    [descriptor] and free-form [attributes]. *)
Record t := mk {
  index : string;
  endpoint : string;
  descriptor : Descriptor;
  attributes : gmap string pyval
}.

End Service.

(** The metadata of a document, a dictionary of dictionaries.  The asset
    service reads the attributes of an asset ([name], [type], [desc],
    [fig]) in the dictionary under the key ['main'], written
    [ddo.metadata['main']]; nothing makes that key present. *)
Abbreviation Metadata := (gmap string (gmap string pyval)) (only parsing).

(** Modelled from the spec: the proof of a document is its checksum. *)
Record Proof := {
  proof_checksum : Checksum         (* proof['checksum'] *)
}.

(** The document of an asset, [datatoken.core.ddo.DDO]. *)
Module DDO.

(** Modelled from the spec: the class [DDO] (module [datatoken.core.ddo]) is
    missing from the sources.  The record has the fields the data model
    lists and the asset service reads: [dt], [creator], [metadata],
    [services] (an ordered list), [child_dts] (an ordered list, empty for a
    leaf asset) and [proof]. *)
Record t := mk {
  dt : DT;
  creator : Address;
  metadata : Metadata;
  services : list Service.t;
  child_dts : list DT;
  proof : Proof
}.

(** Modelled from the spec: the constructor [DDO()] is missing from the
    sources; a field that has not been set yet holds the empty value of its
    type. *)
Definition new : t :=
  {| dt := ""; creator := ""; metadata := ∅;
     services := []; child_dts := [];
     proof := {| proof_checksum := "" |} |}.

(** Modelled from the spec: the method [add_metadata(metadata, child_dts)]
    is missing from the sources; it sets the metadata and the children, no
    children when [child_dts] is [None]. *)
Definition add_metadata (ddo : t) (values : Metadata)
    (children : option (list DT)) : t :=
  {| dt := dt ddo; creator := creator ddo; metadata := values;
     services := services ddo; child_dts := default [] children;
     proof := proof ddo |}.

(** Modelled from the spec: the method [add_creator(owner_address)] is
    missing from the sources; it sets the creator. *)
Definition add_creator (ddo : t) (owner_address : Address) : t :=
  {| dt := dt ddo; creator := owner_address; metadata := metadata ddo;
     services := services ddo; child_dts := child_dts ddo;
     proof := proof ddo |}.

(** Modelled from the spec: the method [add_service(service)] is missing
    from the sources; it puts the service at the end of the ordered list. *)
Definition add_service (ddo : t) (service : Service.t) : t :=
  {| dt := dt ddo; creator := creator ddo; metadata := metadata ddo;
     services := services ddo ++ [service]; child_dts := child_dts ddo;
     proof := proof ddo |}.

(** Modelled from the spec: the method [assign_dt(dt)] is missing from the
    sources; it sets the token identifier. *)
Definition assign_dt (ddo : t) (new_dt : DT) : t :=
  {| dt := new_dt; creator := creator ddo; metadata := metadata ddo;
     services := services ddo; child_dts := child_dts ddo;
     proof := proof ddo |}.

(** Modelled from the spec: the method [create_proof()] is missing from the
    sources; the proof is the checksum computed over the document as
    populated so far, identifier and children included.  The hash is a
    parameter. *)
Definition create_proof (checksum_of : t → Checksum) (ddo : t) : t :=
  {| dt := dt ddo; creator := creator ddo; metadata := metadata ddo;
     services := services ddo; child_dts := child_dts ddo;
     proof := {| proof_checksum := checksum_of ddo |} |}.

(** Modelled from the spec: the property [is_cdt] is missing from the
    sources; the invariant of the data model is
    [is_composite == (len(child_dts) > 0)]. *)
Definition is_cdt (ddo : t) : bool :=
  match child_dts ddo with
  | [] => false
  | _ :: _ => true
  end.

End DDO.

(** The token record the ledger returns for a token: [data[0]] is the owner,
    [data[1]] the issuer and [data[2]] the checksum recorded at mint time. *)
Record TokenData := {
  data_owner : Address;
  data_issuer : Address;
  data_checksum : Checksum
}.

(** ** Calls to collaborators *)

Inductive call : Type :=
| CheckDtPerm (dt cdt : DT)
| CheckDtOwner (dt : DT) (owner_address : Address)
| VerifySignature (address : Address) (signature : Signature) (msg : string)
| VerifyDdoIntegrity (ddo : DDO.t) (checksum : Checksum)
| VerifyServices (ddo : DDO.t) (wrt_dts : option (list DT))
                 (integrity_check : option bool)
| ResolveAsset (dt : DT)
| ResolveAssetByUrl (url : IpfsPath)
| GenerateNewDt
| IpfsAdd (doc : DDO.t)
| MintDt (dt : TokenId) (owner : Address) (isLeaf : bool)
         (checksum : Checksum) (ipfs_path : IpfsPath) (issuer_wallet : Wallet)
| GrantDt (dt grantee : TokenId) (owner_wallet : Wallet)
| StartComposeDt (cdt : TokenId) (child_dts : list TokenId)
                 (aggregator_wallet : Wallet)
| GetAvailableDts
| GetIssuerNames (issuers : list Address)
| GetEnterprise (issuer : Address)
| TraceDataUnion (ddo : DDO.t) (path : list DT)
| TreeFormat (union_paths : pyval)
| TreeToJson (tree : pyval).

(** What each call returns.  [get_available_dts] returns seven parallel
    lists of which the asset service keeps four: the identifiers, the
    issuers, the checksums and the IPFS paths.  An argument that a call site
    of [verify_services] leaves out is [None]: the callee's default
    applies. *)
Definition ret_ty (c : call) : Type :=
  match c with
  | CheckDtPerm _ _ => bool
  | CheckDtOwner _ _ => bool
  | VerifySignature _ _ _ => bool
  | VerifyDdoIntegrity _ _ => bool
  | VerifyServices _ _ _ => bool
  | ResolveAsset _ => (option TokenData * option DDO.t)%type
  | ResolveAssetByUrl _ => option DDO.t
  | GenerateNewDt => DT
  | IpfsAdd _ => IpfsPath
  | MintDt _ _ _ _ _ _ => unit
  | GrantDt _ _ _ => unit
  | StartComposeDt _ _ _ => unit
  | GetAvailableDts =>
      (list TokenId * list Address * list Checksum * list IpfsPath)%type
  | GetIssuerNames _ => list string
  | GetEnterprise _ => list pyval
  | TraceDataUnion _ _ => pyval
  | TreeFormat _ => pyval
  | TreeToJson _ => pyval
  end.

(** Exceptions a method of the asset service can end with: the ones it
    raises itself and the failure of a collaborator, passed on unchanged. *)
Inductive exn : Type :=
| AssertionError (msg : string)
| KeyError (key : string)
| IndexError
| CollaboratorError (what : string).

(** ** Programs *)

Inductive prog (R : Type) : Type :=
| Ret (r : R)
| Raise (e : exn)
| Vis (c : call) (k : ret_ty c → prog R).

Arguments Ret {R} r.
Arguments Raise {R} e.
Arguments Vis {R} c k.

Fixpoint bind {A B} (p : prog A) (f : A → prog B) : prog B :=
  match p with
  | Ret a => f a
  | Raise e => Raise e
  | Vis c k => Vis c (λ x, bind (k x) f)
  end.

#[global] Instance prog_ret : MRet prog := λ _ r, Ret r.
#[global] Instance prog_bind : MBind prog := λ _ _ f p, bind p f.

(** One call to a collaborator, returning its answer. *)
Definition perform (c : call) : prog (ret_ty c) := Vis c Ret.

(** ** Running a program *)

Inductive answer (A : Type) : Type :=
| Returned (a : A)
| Failed (what : string).

Arguments Returned {A} a.
Arguments Failed {A} what.

Definition oracle := ∀ c : call, answer (ret_ty c).

Fixpoint run {R} (o : oracle) (p : prog R) : list call * (exn + R) :=
  match p with
  | Ret r => ([], inr r)
  | Raise e => ([], inl e)
  | Vis c k =>
      match o c with
      | Returned x => let '(t, r) := run o (k x) in (c :: t, r)
      | Failed what => ([c], inl (CollaboratorError what))
      end
  end.

Definition trace {R} (o : oracle) (p : prog R) : list call := (run o p).1.
Definition outcome {R} (o : oracle) (p : prog R) : exn + R := (run o p).2.

(** ** Values the queries return *)

(** One entry of the marketplace list:
    [{"dt", "issuer", "name", "fig", "union_or_not"}]. *)
Module Entry.

Record t := mk {
  dt : DT;
  issuer : string;
  name : pyval;
  fig : pyval;
  union_or_not : bool
}.

End Entry.

(** [dt_info]: [{"name", "owner", "issuer", "desc", "type", "fig"}]. *)
Module DtInfo.

Record t := mk {
  name : pyval;
  owner : Address;
  issuer : pyval;
  desc : pyval;
  type : pyval;
  fig : pyval
}.

End DtInfo.

(** One element of [service_lists]: [{"sid", "op", "price", "constrains"}]. *)
Module ServiceInfo.

Record t := mk {
  sid : string;
  op : pyval;
  price : pyval;
  constrains : Descriptor
}.

End ServiceInfo.

(** [zip(a, b, c, d)]: stops with the shortest of the four lists. *)
Fixpoint zip4 {A B C D} (a : list A) (b : list B) (c : list C) (d : list D)
    : list (A * B * C * D) :=
  match a, b, c, d with
  | x :: a, y :: b, z :: c, w :: d => (x, y, z, w) :: zip4 a b c d
  | _, _, _, _ => []
  end.

(** [t[0]] for a tuple. *)
Definition py_item0 (t : list pyval) : prog pyval :=
  match t with
  | x :: _ => Ret x
  | [] => Raise IndexError
  end.

(** [d[key]] for a dict. *)
Definition py_item {V} (d : gmap string V) (key : string) : prog V :=
  match d !! key with
  | Some v => Ret v
  | None => Raise (KeyError key)
  end.

(** ** The asset service *)

Section AssetService.

(** The static helpers of [DTHelper] that convert identifiers, and the hash
    [DDO.create_proof] takes over the document, are parameters: the asset
    service uses them as given. *)
Context (dt_to_id : DT → TokenId)
        (id_bytes_to_dt : TokenId → DT)
        (checksum_of : DDO.t → Checksum).

Definition service_error : string := "Service agreements are not satisfied".

(** def generate_ddo(self, metadata, services, owner_address,
                     child_dts=None, verify=True) *)
Definition generate_ddo (metadata : Metadata) (services : list Service.t)
    (owner_address : Address) (child_dts : option (list DT)) (verify : bool)
    : prog DDO.t :=
  let ddo := DDO.new in
  let ddo := DDO.add_metadata ddo metadata child_dts in
  let ddo := DDO.add_creator ddo owner_address in
  let ddo := foldl DDO.add_service ddo services in
  new_dt ← perform GenerateNewDt;
  let ddo := DDO.assign_dt ddo new_dt in
  let ddo := DDO.create_proof checksum_of ddo in
  if verify then
    satisfied ← perform (VerifyServices ddo None None);
    if negb satisfied then Raise (AssertionError service_error) else Ret ddo
  else Ret ddo.

(** def publish_dt(self, ddo, issuer_wallet); the document handed to the
    IPFS client is [ddo.to_dict()], the DDO in its dictionary form. *)
Definition publish_dt (ddo : DDO.t) (issuer_wallet : Wallet) : prog unit :=
  ipfs_path ← perform (IpfsAdd ddo);
  let dt := dt_to_id (DDO.dt ddo) in
  let owner := DDO.creator ddo in
  let isLeaf := negb (py_bool (DDO.child_dts ddo)) in
  let checksum := proof_checksum (DDO.proof ddo) in
  perform (MintDt dt owner isLeaf checksum ipfs_path issuer_wallet);;
  Ret ().

(** def grant_dt_perm(self, dt, grantee, owner_wallet) *)
Definition grant_dt_perm (dt grantee : DT) (owner_wallet : Wallet)
    : prog unit :=
  let _dt := dt_to_id dt in
  let _grantee := dt_to_id grantee in
  perform (GrantDt _dt _grantee owner_wallet);;
  Ret ().

(** def activate_cdt(self, cdt, child_dts, aggregator_wallet) *)
Definition activate_cdt (cdt : DT) (child_dts : list DT)
    (aggregator_wallet : Wallet) : prog unit :=
  let _cdt := dt_to_id cdt in
  let _child_dts := dt_to_id <$> child_dts in
  perform (StartComposeDt _cdt _child_dts aggregator_wallet);;
  Ret ().

(** def check_service_terms(self, cdt, dt, owner_address, signature) *)
Definition check_service_terms (cdt dt : DT) (owner_address : Address)
    (signature : Signature) : prog bool :=
  perm ← perform (CheckDtPerm dt cdt);
  if perm : bool then Ret true else
  is_owner ← perform (CheckDtOwner dt owner_address);
  if negb is_owner then Ret false else
  resolved ← perform (ResolveAsset cdt);
  match resolved with
  | (Some data, Some cdt_ddo) =>
      let consume_address := data_issuer data in
      let original_msg := consume_address +:+ cdt in
      sig_ok ← perform (VerifySignature consume_address signature original_msg);
      if negb sig_ok then Ret false else
      let checksum := data_checksum data in
      intact ← perform (VerifyDdoIntegrity cdt_ddo checksum);
      if negb intact then Ret false else
      served ← perform (VerifyServices cdt_ddo (Some [dt]) (Some false));
      if negb served then Ret false else
      Ret true
  | _ => Ret false
  end.

(** The body of the loop of [get_dt_marketplace] over
    [zip(dt_idx, issuer_names, ipfs_paths, checksums)]. *)
Fixpoint marketplace_loop
    (rows : list (TokenId * string * IpfsPath * Checksum))
    (marketplace_list : list Entry.t) : prog (list Entry.t) :=
  match rows with
  | [] => Ret marketplace_list
  | (dt, issuer_name, ipfs_path, checksum) :: rows =>
      resolved ← perform (ResolveAssetByUrl ipfs_path);
      match resolved with
      | Some ddo =>
          main ← py_item (DDO.metadata ddo) "main";
          if py_ne_str (py_get main "type") "Algorithm"
          then
            intact ← perform (VerifyDdoIntegrity ddo checksum);
            if intact : bool then
              let dt := id_bytes_to_dt dt in
              main ← py_item (DDO.metadata ddo) "main";
              let asset_name := py_get main "name" in
              main ← py_item (DDO.metadata ddo) "main";
              let asset_fig := py_get main "fig" in
              let union_or_not := DDO.is_cdt ddo in
              marketplace_loop rows
                (marketplace_list ++
                 [Entry.mk dt issuer_name asset_name asset_fig union_or_not])
            else marketplace_loop rows marketplace_list
          else marketplace_loop rows marketplace_list
      | None => marketplace_loop rows marketplace_list
      end
  end.

(** def get_dt_marketplace(self) *)
Definition get_dt_marketplace : prog (list Entry.t) :=
  available ← perform GetAvailableDts;
  let '(dt_idx, issuers, checksums, ipfs_paths) := available in
  issuer_names ← perform (GetIssuerNames issuers);
  marketplace_loop (zip4 dt_idx issuer_names ipfs_paths checksums) [].

(** The loop of [get_dt_details] over [ddo.services]. *)
Fixpoint service_loop (services : list Service.t)
    (service_lists : list ServiceInfo.t) : prog (list ServiceInfo.t) :=
  match services with
  | [] => Ret service_lists
  | service :: services =>
      let sid := Service.index service in
      let op_name := py_get (Service.attributes service) "op_name" in
      price ← py_item (Service.attributes service) "price";
      let constrains := Service.descriptor service in
      service_loop services
        (service_lists ++ [ServiceInfo.mk sid op_name price constrains])
  end.

(** def get_dt_details(self, dt) *)
Definition get_dt_details (dt : DT)
    : prog (option (DtInfo.t * list ServiceInfo.t * pyval)) :=
  resolved ← perform (ResolveAsset dt);
  match resolved with
  | (Some data, Some ddo) =>
      let checksum := data_checksum data in
      intact ← perform (VerifyDdoIntegrity ddo checksum);
      if negb intact then Ret None else
      let owner := data_owner data in
      let issuer := data_issuer data in
      enterprise ← perform (GetEnterprise issuer);
      issuer_name ← py_item0 enterprise;
      main ← py_item (DDO.metadata ddo) "main";
      let asset_name := py_get main "name" in
      main ← py_item (DDO.metadata ddo) "main";
      let asset_desc := py_get main "desc" in
      main ← py_item (DDO.metadata ddo) "main";
      let asset_type := py_get main "type" in
      main ← py_item (DDO.metadata ddo) "main";
      let asset_fig := py_get main "fig" in
      let dt_info :=
        DtInfo.mk asset_name owner issuer_name asset_desc asset_type asset_fig in
      union_data ←
        (if DDO.is_cdt ddo then
           union_paths ← perform (TraceDataUnion ddo [DDO.dt ddo]);
           tree ← perform (TreeFormat union_paths);
           perform (TreeToJson tree)
         else Ret VNone);
      service_lists ← service_loop (DDO.services ddo) [];
      Ret (Some (dt_info, service_lists, union_data))
  | _ => Ret None
  end.

End AssetService.

(** ** Checks and their order *)

(** A check passes when the collaborator answers and the answer is positive:
    [True] for a lookup or a verification, a token record together with a
    document for a resolution. *)
Definition passes (o : oracle) (c : call) : bool :=
  match c with
  | CheckDtPerm a b =>
      match o (CheckDtPerm a b) with Returned r => r | Failed _ => false end
  | CheckDtOwner a b =>
      match o (CheckDtOwner a b) with Returned r => r | Failed _ => false end
  | VerifySignature a b m =>
      match o (VerifySignature a b m) with Returned r => r | Failed _ => false end
  | VerifyDdoIntegrity a b =>
      match o (VerifyDdoIntegrity a b) with Returned r => r | Failed _ => false end
  | VerifyServices a b i =>
      match o (VerifyServices a b i) with Returned r => r | Failed _ => false end
  | ResolveAsset a =>
      match o (ResolveAsset a) with
      | Returned (Some _, Some _) => true
      | _ => false
      end
  | _ => false
  end.

(** The calls of a list of checks that are made when evaluation goes in the
    order of the list and stops with the first check that does not pass. *)
Fixpoint until_failure (o : oracle) (checks : list call) : list call :=
  match checks with
  | [] => []
  | c :: checks => if passes o c then c :: until_failure o checks else [c]
  end.

(** The checks of an authorization request that finds no grant, in the order
    the specification lists them: ownership of [dt], resolution of [cdt],
    signature of the issuer of [cdt] over [<issuer><cdt>], integrity of the
    document against the recorded checksum, services against [dt] alone. *)
Definition authorization_checks (o : oracle) (cdt dt : DT)
    (owner_address : Address) (signature : Signature) : list call :=
  [CheckDtOwner dt owner_address; ResolveAsset cdt] ++
  match o (ResolveAsset cdt) with
  | Returned (Some data, Some ddo) =>
      [VerifySignature (data_issuer data) signature (data_issuer data +:+ cdt);
       VerifyDdoIntegrity ddo (data_checksum data);
       VerifyServices ddo (Some [dt]) (Some false)]
  | _ => []
  end.

(** ** Publication *)

Definition is_mint (c : call) : bool :=
  match c with
  | MintDt _ _ _ _ _ _ => true
  | _ => false
  end.

Definition is_verify_services (c : call) : bool :=
  match c with
  | VerifyServices _ _ _ => true
  | _ => false
  end.

(** The document [generate_ddo] has assembled once it has drawn the
    identifier [new_dt]: metadata and children, creator, services in the
    order given, identifier, proof. *)
Definition assemble (checksum_of : DDO.t → Checksum) (metadata : Metadata)
    (services : list Service.t) (owner_address : Address)
    (child_dts : option (list DT)) (new_dt : DT) : DDO.t :=
  DDO.create_proof checksum_of
    (DDO.assign_dt
       (foldl DDO.add_service
          (DDO.add_creator (DDO.add_metadata DDO.new metadata child_dts)
             owner_address)
          services)
       new_dt).



(** ** Listing *)

(** Every document the store resolves has the dictionary ['main'] in its
    metadata. *)
Definition sectioned (o : oracle) : Prop :=
  ∀ url ddo, o (ResolveAssetByUrl url) = Returned (Some ddo) →
             is_Some (DDO.metadata ddo !! "main").

(** What the marketplace shows of one registered token: an entry when its
    document resolves, has its attributes under ['main'], is not of type
    [Algorithm] and matches the recorded checksum. *)
Definition listed (id_bytes_to_dt : TokenId → DT) (o : oracle)
    (row : TokenId * string * IpfsPath * Checksum) : option Entry.t :=
  let '(dt, issuer_name, ipfs_path, checksum) := row in
  match o (ResolveAssetByUrl ipfs_path) with
  | Returned (Some ddo) =>
      match DDO.metadata ddo !! "main" with
      | Some main =>
          if py_ne_str (py_get main "type") "Algorithm"
          then
            if passes o (VerifyDdoIntegrity ddo checksum)
            then Some {| Entry.dt := id_bytes_to_dt dt;
                         Entry.issuer := issuer_name;
                         Entry.name := py_get main "name";
                         Entry.fig := py_get main "fig";
                         Entry.union_or_not := DDO.is_cdt ddo |}
            else None
          else None
      | None => None
      end
  | _ => None
  end.

(** A row the marketplace goes through without an exception: the store
    answers, and for a document it resolves the dictionary ['main'] is
    present and the verifier answers. *)
Definition smooth (o : oracle)
    (row : TokenId * string * IpfsPath * Checksum) : Prop :=
  match o (ResolveAssetByUrl row.1.2) with
  | Returned (Some ddo) =>
      is_Some (DDO.metadata ddo !! "main") ∧
      ∃ b, o (VerifyDdoIntegrity ddo row.2) = Returned b
  | Returned None => True
  | Failed _ => False
  end.

(** ** Verification of services, as specified *)



(** ** Kinds of calls *)

(** The calls that change the store or the ledger. *)
Definition is_write (c : call) : bool :=
  match c with
  | IpfsAdd _ | MintDt _ _ _ _ _ _ | GrantDt _ _ _ | StartComposeDt _ _ _ => true
  | _ => false
  end.

Definition is_tracer_call (c : call) : bool :=
  match c with
  | TraceDataUnion _ _ | TreeFormat _ | TreeToJson _ => true
  | _ => false
  end.

Definition is_grant_lookup (c : call) : bool :=
  match c with
  | CheckDtPerm _ _ => true
  | _ => false
  end.

(** A program all of whose calls, whatever the collaborators answer,
    satisfy [P]. *)
Inductive only (P : call → Prop) {R : Type} : prog R → Prop :=
| only_ret (r : R) : only P (Ret r)
| only_raise (e : exn) : only P (Raise e)
| only_vis (c : call) (k : ret_ty c → prog R) :
    P c → (∀ x, only P (k x)) → only P (Vis c k).

(** A program whose own exceptions, whatever the collaborators answer,
    satisfy [E]; the failure of a collaborator is not its own. *)
Inductive raises_only (E : exn → Prop) {R : Type} : prog R → Prop :=
| raises_only_ret (r : R) : raises_only E (Ret r)
| raises_only_raise (e : exn) : E e → raises_only E (Raise e)
| raises_only_vis (c : call) (k : ret_ty c → prog R) :
    (∀ x, raises_only E (k x)) → raises_only E (Vis c k).

(** The exception [e] a run ends with is the failure of the collaborator
    called last, passed on. *)
Definition passed_on {R : Type} (o : oracle) (p : prog R) (e : exn) : Prop :=
  ∃ c what, last (trace o p) = Some c ∧ o c = Failed what ∧
            e = CollaboratorError what.

(** A program that makes at most [n] calls, whatever the collaborators
    answer. *)
Inductive within {R : Type} : nat → prog R → Prop :=
| within_ret (n : nat) (r : R) : within n (Ret r)
| within_raise (n : nat) (e : exn) : within n (Raise e)
| within_vis (n : nat) (c : call) (k : ret_ty c → prog R) :
    (∀ x, within n (k x)) → within (S n) (Vis c k).

(** ** Rows of the marketplace and of the details *)

(** The calls [get_dt_marketplace] makes for one row of the ledger: the
    resolution of the document and, when the document resolves and is not
    of type [Algorithm], the verification of its integrity against the
    checksum of the row. *)
Definition row_calls (o : oracle)
    (row : TokenId * string * IpfsPath * Checksum) : list call :=
  let '(_, _, ipfs_path, checksum) := row in
  ResolveAssetByUrl ipfs_path ::
  match o (ResolveAssetByUrl ipfs_path) with
  | Returned (Some ddo) =>
      match DDO.metadata ddo !! "main" with
      | Some main =>
          if py_ne_str (py_get main "type") "Algorithm"
          then [VerifyDdoIntegrity ddo checksum]
          else []
      | None => []
      end
  | _ => []
  end.

(** The lineage [get_dt_details] obtains for a document: what the tracer
    renders for a composite document, asked in three steps, and [None] for
    a leaf document, for which the tracer is not asked. *)
Definition lineage (o : oracle) (ddo : DDO.t) : answer pyval :=
  if DDO.is_cdt ddo then
    match o (TraceDataUnion ddo [DDO.dt ddo]) with
    | Returned union_paths =>
        match o (TreeFormat union_paths) with
        | Returned tree => o (TreeToJson tree)
        | Failed what => Failed what
        end
    | Failed what => Failed what
    end
  else Returned VNone.

(** What [get_dt_details] shows of one service; nothing when the service
    has no price. *)
Definition service_info (service : Service.t) : option ServiceInfo.t :=
  price ← Service.attributes service !! "price";
  Some {| ServiceInfo.sid := Service.index service;
          ServiceInfo.op := py_get (Service.attributes service) "op_name";
          ServiceInfo.price := price;
          ServiceInfo.constrains := Service.descriptor service |}.

(** What [get_dt_details] shows of the token itself: name, description,
    type and figure from the document, owner from the token record, issuer
    as named by the asset provider. *)
Definition info_of (data : TokenData) (main : gmap string pyval)
    (issuer_name : pyval) : DtInfo.t :=
  {| DtInfo.name := py_get main "name";
     DtInfo.owner := data_owner data;
     DtInfo.issuer := issuer_name;
     DtInfo.desc := py_get main "desc";
     DtInfo.type := py_get main "type";
     DtInfo.fig := py_get main "fig" |}.

(** ** A concrete ledger and store

    The scenario of [tests/test.py]: three organisations; two datasets
    published by the first two, their union composed by the third, and an
    algorithm composed over the union.  The collaborators answer from the
    tables of a [world]. *)

Module Demo.

Record world := {
  tokens : list (DT * (TokenData * IpfsPath));   (* minted tokens, oldest first *)
  edges : list (DT * DT);                        (* grants, child to composite *)
  documents : gmap IpfsPath DDO.t;               (* what the store holds *)
  enterprises : gmap Address string;             (* registered names *)
  agreed : list (DT * option (list DT))          (* verdicts of verify_services *)
}.

(** Identifiers read [dt:ownership:<id>]. *)
Definition dt_to_id (dt : DT) : TokenId :=
  String.substring 13 (String.length dt - 13) dt.

Definition id_bytes_to_dt (id : TokenId) : DT := "dt:ownership:" +:+ id.

(** A stand-in for the hash of the canonical serialization: it reads
    every field but the proof. *)
Definition checksum_of (ddo : DDO.t) : Checksum :=
  "sum(" +:+ DDO.dt ddo +:+ "," +:+ DDO.creator ddo +:+ ","
  +:+ String.concat "+" (DDO.child_dts ddo) +:+ ","
  +:+ String.concat "+" (Service.index <$> DDO.services ddo) +:+ ","
  +:+ String.concat "+" ((map_to_list (DDO.metadata ddo)).*1) +:+ ")".

(** A stand-in for the signer: the signature of [msg] by [address]. *)
Definition sign (address : Address) (msg : string) : Signature :=
  "signed(" +:+ address +:+ "," +:+ msg +:+ ")".

Fixpoint find_token (rows : list (DT * (TokenData * IpfsPath))) (dt : DT)
    : option (TokenData * IpfsPath) :=
  match rows with
  | [] => None
  | (d, record) :: rows =>
      if String.eqb d dt then Some record else find_token rows dt
  end.

Definition token_record (w : world) (dt : DT) : option (TokenData * IpfsPath) :=
  find_token (tokens w) dt.

Definition answers (w : world) : oracle := λ c,
  match c with
  | CheckDtPerm dt cdt => Returned (bool_decide ((dt, cdt) ∈ edges w))
  | CheckDtOwner dt owner_address =>
      Returned (match token_record w dt with
                | Some (data, _) =>
                    bool_decide (data_owner data = owner_address)
                | None => false
                end)
  | VerifySignature address signature msg =>
      Returned (bool_decide (signature = sign address msg))
  | VerifyDdoIntegrity ddo checksum =>
      Returned (bool_decide (checksum_of ddo = checksum))
  | VerifyServices ddo wrt_dts _ =>
      Returned (bool_decide ((DDO.dt ddo, wrt_dts) ∈ agreed w))
  | ResolveAsset dt =>
      Returned (match token_record w dt with
                | Some (data, path) => (Some data, documents w !! path)
                | None => (None, None)
                end)
  | ResolveAssetByUrl url => Returned (documents w !! url)
  | GenerateNewDt =>
      Returned (id_bytes_to_dt (pretty (length (tokens w) + 1)))
  | IpfsAdd doc => Returned ("/ipfs/" +:+ dt_to_id (DDO.dt doc))
  | MintDt _ _ _ _ _ _ => Returned ()
  | GrantDt _ _ _ => Returned ()
  | StartComposeDt _ _ _ => Returned ()
  | GetAvailableDts =>
      Returned (dt_to_id <$> (tokens w).*1,
                data_issuer <$> (tokens w).*2.*1,
                data_checksum <$> (tokens w).*2.*1,
                (tokens w).*2.*2)
  | GetIssuerNames issuers =>
      Returned ((λ a, default "" (enterprises w !! a)) <$> issuers)
  | GetEnterprise issuer =>
      match enterprises w !! issuer with
      | Some name => Returned [VStr name]
      | None => Failed "enterprise not registered"
      end
  | TraceDataUnion ddo path => Returned (VDict ((λ d, (d, VNone)) <$> path))
  | TreeFormat union_paths => Returned union_paths
  | TreeToJson tree => Returned tree
  end.

Definition org1 : Address := "0xorg1".
Definition org2 : Address := "0xorg2".
Definition org3 : Address := "0xorg3".

Definition op1 : string := "tid:add_op".

Definition dt1 : DT := "dt:ownership:1".
Definition dt2 : DT := "dt:ownership:2".
Definition dt3 : DT := "dt:ownership:3".
Definition dt4 : DT := "dt:ownership:4".

Definition service1 : Service.t :=
  Service.mk "sid0_for_dt1" "ip:port"
    (TemplateDescriptor op1 (VDict [("arg1", VInt 1); ("arg2", VDict [])]))
    {[ "price" := VInt 10 ]}.

Definition service2 : Service.t :=
  Service.mk "sid0_for_dt2" "ip:port"
    (TemplateDescriptor op1 (VDict [("arg1", VDict []); ("arg2", VInt 2)]))
    {[ "price" := VInt 10 ]}.

Definition service3 : Service.t :=
  Service.mk "sid0_for_cdt1" "ip:port"
    (WorkflowDescriptor
       {[ dt1 := {| wf_service := "sid0_for_dt1";
                    wf_constraint := VDict [("arg1", VInt 1); ("arg2", VInt 3)] |};
          dt2 := {| wf_service := "sid0_for_dt2";
                    wf_constraint := VDict [("arg1", VDict []); ("arg2", VInt 2)] |} ]})
    {[ "price" := VInt 20 ]}.

Definition service4 : Service.t :=
  Service.mk "sid0_for_cdt2" "ip:port"
    (WorkflowDescriptor
       {[ dt3 := {| wf_service := "sid0_for_cdt1";
                    wf_constraint :=
                      VDict [(dt1, VDict [("arg1", VInt 1); ("arg2", VInt 3)]);
                             (dt2, VDict [("arg1", VInt 1); ("arg2", VInt 2)])] |} ]})
    {[ "price" := VInt 30 ]}.

(** A service whose workflow names a token that is no child of the
    document it is declared in, and that lacks a price. *)
Definition stray_service : Service.t :=
  Service.mk "sid0_stray" "ip:port"
    (WorkflowDescriptor
       {[ "dt:ownership:404" :=
            {| wf_service := "sid0"; wf_constraint := VNone |} ]})
    ∅.

Definition metadata_of (name type : string)
    : gmap string (gmap string pyval) :=
  {[ "main" := {[ "name" := VStr name; "type" := VStr type ]} ]}.

(** The documents, as [generate_ddo] builds them. *)
Definition document := assemble checksum_of.

Definition ddo1 : DDO.t :=
  document (metadata_of "dataset1" "Dataset") [service1] org1 None dt1.
Definition ddo2 : DDO.t :=
  document (metadata_of "dataset2" "Dataset") [service2] org2 None dt2.
Definition ddo3 : DDO.t :=
  document (metadata_of "data union" "Dataset") [service3] org3
    (Some [dt1; dt2]) dt3.
Definition ddo4 : DDO.t :=
  document (metadata_of "algorithm1" "Algorithm") [service4] org3
    (Some [dt3]) dt4.

Definition minted (ddo : DDO.t) : DT * (TokenData * IpfsPath) :=
  (DDO.dt ddo,
   ({| data_owner := DDO.creator ddo; data_issuer := DDO.creator ddo;
       data_checksum := proof_checksum (DDO.proof ddo) |},
    "/ipfs/" +:+ dt_to_id (DDO.dt ddo))).

Definition names : gmap Address string :=
  {[ org1 := "org1"; org2 := "org2"; org3 := "org3" ]}.

(** The two datasets are published; the verifier is ready to accept the
    union, which is the next token to be drawn. *)
Definition composing : world :=
  {| tokens := [minted ddo1; minted ddo2];
     edges := [];
     documents := {[ "/ipfs/1" := ddo1; "/ipfs/2" := ddo2 ]};
     enterprises := names;
     agreed := [(dt1, None); (dt2, None); (dt3, None)] |}.

(** The three first tokens are published and no grant has been made. *)
Definition published : world :=
  {| tokens := [minted ddo1; minted ddo2; minted ddo3];
     edges := [];
     documents := {[ "/ipfs/1" := ddo1; "/ipfs/2" := ddo2; "/ipfs/3" := ddo3 ]};
     enterprises := names;
     agreed := [(dt1, None); (dt2, None); (dt3, None);
                (dt3, Some [dt1]); (dt3, Some [dt2])] |}.

(** Both datasets are granted to the union; the algorithm is published. *)
Definition granted : world :=
  {| tokens := [minted ddo1; minted ddo2; minted ddo3; minted ddo4];
     edges := [(dt1, dt3); (dt2, dt3)];
     documents := {[ "/ipfs/1" := ddo1; "/ipfs/2" := ddo2; "/ipfs/3" := ddo3;
                     "/ipfs/4" := ddo4 ]};
     enterprises := names;
     agreed := [(dt1, None); (dt2, None); (dt3, None); (dt4, None);
                (dt3, Some [dt1]); (dt3, Some [dt2]); (dt4, Some [dt3])] |}.

(** The store lost the document of the second dataset, and holds another
    document than the one minted for the union. *)
Definition damaged : world :=
  {| tokens := [minted ddo1; minted ddo2; minted ddo3];
     edges := [];
     documents := {[ "/ipfs/1" := ddo1;
                     "/ipfs/3" := DDO.add_service ddo3 stray_service ]};
     enterprises := names;
     agreed := [(dt1, None); (dt3, None); (dt3, Some [dt1])] |}.

(** As [granted], the grants withdrawn. *)
Definition ungranted : world :=
  {| tokens := tokens granted;
     edges := [];
     documents := documents granted;
     enterprises := enterprises granted;
     agreed := agreed granted |}.

(** A dataset one of whose two services declares no price. *)
Definition dt5 : DT := "dt:ownership:5".

Definition ddo5 : DDO.t :=
  document (metadata_of "dataset5" "Dataset") [service1; stray_service] org1
    None dt5.

Definition unpriced : world :=
  {| tokens := [minted ddo5];
     edges := [];
     documents := {[ "/ipfs/5" := ddo5 ]};
     enterprises := names;
     agreed := [] |}.

(** A dataset whose metadata lacks the dictionary ['main'], minted between
    the two datasets. *)
Definition dt6 : DT := "dt:ownership:6".

Definition ddo6 : DDO.t := document ∅ [service1] org1 None dt6.

Definition unsectioned : world :=
  {| tokens := [minted ddo1; minted ddo6; minted ddo2];
     edges := [];
     documents := {[ "/ipfs/1" := ddo1; "/ipfs/6" := ddo6; "/ipfs/2" := ddo2 ]};
     enterprises := names;
     agreed := [(dt1, None); (dt6, None); (dt2, None)] |}.



End Demo.

(** The collaborators of [o], with the calls that satisfy [broken]
    failing. *)
Definition failing (what : string) (broken : call → bool) (o : oracle)
    : oracle :=
  λ c, if broken c then Failed what else o c.

(** The collaborators of [o], with an asset provider that returns an
    empty record for every issuer. *)
Definition anonymous (o : oracle) : oracle :=
  λ c, match c as c' return answer (ret_ty c') with
       | GetEnterprise _ => Returned []
       | c' => o c'
       end.

Definition is_resolution_of (url : IpfsPath) (c : call) : bool :=
  match c with
  | ResolveAssetByUrl url' => String.eqb url url'
  | _ => false
  end.

(** The collaborators of [o], with an asset provider that returns the
    names [issuer_names] whatever the issuers. *)
Definition naming (issuer_names : list string) (o : oracle) : oracle :=
  λ c, match c as c' return answer (ret_ty c') with
       | GetIssuerNames _ => Returned issuer_names
       | c' => o c'
       end.


Definition is_resolution (c : call) : bool :=
  match c with
  | ResolveAssetByUrl _ => true
  | _ => false
  end.

(** ** Running programs: basic facts *)

(** Membership in an explicit list. *)
Ltac in_list :=
  cbn; repeat first [apply list_elem_of_here | apply list_elem_of_further].

(** Unfold one call of a program whose answer is known. *)
Ltac answered H :=
  cbn -[String.append]; rewrite ?H; cbn -[String.append].

Lemma run_ret {R} (o : oracle) (r : R) : run o (Ret r) = ([], inr r).
Proof. reflexivity. Qed.

Lemma run_raise {R} (o : oracle) (e : exn) :
  run o (Raise e : prog R) = ([], inl e).
Proof. reflexivity. Qed.

Lemma run_vis_returned {R} (o : oracle) (c : call) (k : ret_ty c → prog R) x :
  o c = Returned x →
  run o (Vis c k) = (c :: (run o (k x)).1, (run o (k x)).2).
Proof. intros H. cbn. rewrite H. destruct (run o (k x)); reflexivity. Qed.

Lemma run_vis_failed {R} (o : oracle) (c : call) (k : ret_ty c → prog R) what :
  o c = Failed what →
  run o (Vis c k) = ([c], inl (CollaboratorError what)).
Proof. intros H. cbn. rewrite H. reflexivity. Qed.

Lemma run_bind {A B} (o : oracle) (p : prog A) (f : A → prog B) :
  run o (bind p f) =
  match (run o p).2 with
  | inr a => ((run o p).1 ++ (run o (f a)).1, (run o (f a)).2)
  | inl e => ((run o p).1, inl e)
  end.
Proof.
  induction p as [a|e|c k IH]; cbn.
  - destruct (run o (f a)); reflexivity.
  - reflexivity.
  - destruct (o c) as [x|what]; cbn; [|reflexivity].
    rewrite IH. destruct (run o (k x)) as [t [e|a]]; cbn; reflexivity.
Qed.

(** ** Authorization of a compute request *)

(** C1: when a grant edge from [dt] to [cdt] exists, [check_service_terms]
    returns [True] at once, for every owner address and every signature;
    the lookup of the grant is the only call it makes, so no ownership,
    signature, integrity or service check takes place. *)
Theorem check_service_terms_granted (o : oracle) (cdt dt : DT)
    (owner_address : Address) (signature : Signature) :
  o (CheckDtPerm dt cdt) = Returned true →
  run o (check_service_terms cdt dt owner_address signature)
  = ([CheckDtPerm dt cdt], inr true).
Proof.
  intros Hperm. unfold check_service_terms. answered Hperm. reflexivity.
Qed.

(** The five stages [check_service_terms] goes through when no grant exists,
    each with the calls made up to the point where it stops. *)
Lemma check_service_terms_not_owner (o : oracle) (cdt dt : DT)
    (owner_address : Address) (signature : Signature) :
  o (CheckDtPerm dt cdt) = Returned false →
  o (CheckDtOwner dt owner_address) = Returned false →
  run o (check_service_terms cdt dt owner_address signature)
  = ([CheckDtPerm dt cdt; CheckDtOwner dt owner_address], inr false).
Proof.
  intros Hperm Hown. unfold check_service_terms.
  answered Hperm. answered Hown. reflexivity.
Qed.

Lemma check_service_terms_unresolved (o : oracle) (cdt dt : DT)
    (owner_address : Address) (signature : Signature) data ddo :
  o (CheckDtPerm dt cdt) = Returned false →
  o (CheckDtOwner dt owner_address) = Returned true →
  o (ResolveAsset cdt) = Returned (data, ddo) →
  data = None ∨ ddo = None →
  run o (check_service_terms cdt dt owner_address signature)
  = ([CheckDtPerm dt cdt; CheckDtOwner dt owner_address; ResolveAsset cdt],
     inr false).
Proof.
  intros Hperm Hown Hres Hnone. unfold check_service_terms.
  answered Hperm. answered Hown. answered Hres.
  destruct data, ddo; destruct Hnone; try discriminate; reflexivity.
Qed.

Lemma check_service_terms_bad_signature (o : oracle) (cdt dt : DT)
    (owner_address : Address) (signature : Signature) data ddo :
  o (CheckDtPerm dt cdt) = Returned false →
  o (CheckDtOwner dt owner_address) = Returned true →
  o (ResolveAsset cdt) = Returned (Some data, Some ddo) →
  o (VerifySignature (data_issuer data) signature (data_issuer data +:+ cdt))
    = Returned false →
  run o (check_service_terms cdt dt owner_address signature)
  = ([CheckDtPerm dt cdt; CheckDtOwner dt owner_address; ResolveAsset cdt;
      VerifySignature (data_issuer data) signature (data_issuer data +:+ cdt)],
     inr false).
Proof.
  intros Hperm Hown Hres Hsig. unfold check_service_terms.
  answered Hperm. answered Hown. answered Hres. answered Hsig. reflexivity.
Qed.

Lemma check_service_terms_tampered (o : oracle) (cdt dt : DT)
    (owner_address : Address) (signature : Signature) data ddo :
  o (CheckDtPerm dt cdt) = Returned false →
  o (CheckDtOwner dt owner_address) = Returned true →
  o (ResolveAsset cdt) = Returned (Some data, Some ddo) →
  o (VerifySignature (data_issuer data) signature (data_issuer data +:+ cdt))
    = Returned true →
  o (VerifyDdoIntegrity ddo (data_checksum data)) = Returned false →
  run o (check_service_terms cdt dt owner_address signature)
  = ([CheckDtPerm dt cdt; CheckDtOwner dt owner_address; ResolveAsset cdt;
      VerifySignature (data_issuer data) signature (data_issuer data +:+ cdt);
      VerifyDdoIntegrity ddo (data_checksum data)],
     inr false).
Proof.
  intros Hperm Hown Hres Hsig Hint. unfold check_service_terms.
  answered Hperm. answered Hown. answered Hres. answered Hsig. answered Hint.
  reflexivity.
Qed.

Lemma check_service_terms_services (o : oracle) (cdt dt : DT)
    (owner_address : Address) (signature : Signature) data ddo (served : bool) :
  o (CheckDtPerm dt cdt) = Returned false →
  o (CheckDtOwner dt owner_address) = Returned true →
  o (ResolveAsset cdt) = Returned (Some data, Some ddo) →
  o (VerifySignature (data_issuer data) signature (data_issuer data +:+ cdt))
    = Returned true →
  o (VerifyDdoIntegrity ddo (data_checksum data)) = Returned true →
  o (VerifyServices ddo (Some [dt]) (Some false)) = Returned served →
  run o (check_service_terms cdt dt owner_address signature)
  = ([CheckDtPerm dt cdt; CheckDtOwner dt owner_address; ResolveAsset cdt;
      VerifySignature (data_issuer data) signature (data_issuer data +:+ cdt);
      VerifyDdoIntegrity ddo (data_checksum data);
      VerifyServices ddo (Some [dt]) (Some false)],
     inr served).
Proof.
  intros Hperm Hown Hres Hsig Hint Hsrv. unfold check_service_terms.
  answered Hperm. answered Hown. answered Hres. answered Hsig. answered Hint.
  answered Hsrv. destruct served; reflexivity.
Qed.

(** C2: when no grant from [dt] to [cdt] exists, [check_service_terms]
    returns [True] only if [owner_address] is the owner of [dt], the record
    and the document of [cdt] resolve, the signature verifies for the issuer
    of [cdt] over [<issuer><cdt>], the document matches the recorded
    checksum and its services pass the check restricted to [dt]; the checks
    are made in this order, none is made after the first that does not pass,
    and the result is then [False]. *)
Theorem check_service_terms_ungranted (o : oracle) (cdt dt : DT)
    (owner_address : Address) (signature : Signature) :
  o (CheckDtPerm dt cdt) = Returned false →
  (outcome o (check_service_terms cdt dt owner_address signature) = inr true ↔
     o (CheckDtOwner dt owner_address) = Returned true ∧
     ∃ data ddo,
       o (ResolveAsset cdt) = Returned (Some data, Some ddo) ∧
       o (VerifySignature (data_issuer data) signature
            (data_issuer data +:+ cdt)) = Returned true ∧
       o (VerifyDdoIntegrity ddo (data_checksum data)) = Returned true ∧
       o (VerifyServices ddo (Some [dt]) (Some false)) = Returned true) ∧
  trace o (check_service_terms cdt dt owner_address signature)
  = CheckDtPerm dt cdt ::
    until_failure o (authorization_checks o cdt dt owner_address signature) ∧
  ((∀ c, c ∈ authorization_checks o cdt dt owner_address signature →
         ∃ x, o c = Returned x) →
   outcome o (check_service_terms cdt dt owner_address signature)
   = inr (forallb (passes o)
            (authorization_checks o cdt dt owner_address signature))).
Proof.
  intros Hperm.
  unfold outcome, trace, authorization_checks, check_service_terms.
  answered Hperm.
  destruct (o (CheckDtOwner dt owner_address)) as [[|]|w1] eqn:Hown;
    cbn -[String.append].
  2,3: split; [split; [discriminate|intros [? _]; discriminate]|].
  2,3: split; [reflexivity|intros Hall].
  2: reflexivity.
  2: { destruct (Hall (CheckDtOwner dt owner_address)) as [x Hx];
       [in_list|congruence]. }
  destruct (o (ResolveAsset cdt)) as [[[data|] [ddo|]]|w2] eqn:Hres;
    cbn -[String.append].
  2,3,4,5: split;
    [split; [discriminate|intros [_ (? & ? & ? & _)]; discriminate]|].
  2,3,4,5: split; [reflexivity|intros Hall].
  2,3,4: reflexivity.
  2: { destruct (Hall (ResolveAsset cdt)) as [x Hx]; [in_list|congruence]. }
  destruct (o (VerifySignature _ _ _)) as [[|]|w3] eqn:Hsig;
    cbn -[String.append].
  2,3: split; [split; [discriminate|
    intros [_ (? & ? & [= <- <-] & ? & _)]; congruence]|].
  2,3: split; [reflexivity|intros Hall].
  2: reflexivity.
  2: { destruct (Hall (VerifySignature (data_issuer data) signature
                         (data_issuer data +:+ cdt))) as [x Hx];
       [in_list|congruence]. }
  destruct (o (VerifyDdoIntegrity _ _)) as [[|]|w4] eqn:Hint;
    cbn -[String.append].
  2,3: split; [split; [discriminate|
    intros [_ (? & ? & [= <- <-] & ? & ? & _)]; congruence]|].
  2,3: split; [reflexivity|intros Hall].
  2: reflexivity.
  2: { destruct (Hall (VerifyDdoIntegrity ddo (data_checksum data)))
         as [x Hx]; [in_list|congruence]. }
  destruct (o (VerifyServices _ _ _)) as [[|]|w5] eqn:Hsrv;
    cbn -[String.append].
  - split; [split; [intros _|reflexivity]|split; reflexivity].
    split; [reflexivity|]. exists data, ddo. auto.
  - split; [split; [discriminate|
      intros [_ (? & ? & [= <- <-] & ? & ? & ?)]; congruence]|].
    split; reflexivity.
  - split; [split; [discriminate|
      intros [_ (? & ? & [= <- <-] & ? & ? & ?)]; congruence]|].
    split; [reflexivity|intros Hall].
    destruct (Hall (VerifyServices ddo (Some [dt]) (Some false))) as [x Hx];
      [in_list|congruence].
Qed.

(** C4: when the token record or the document of [cdt] cannot be resolved
    and no grant exists, [check_service_terms] returns [False]; it does not
    raise.  The lookups of the grant and of the owner are taken to answer. *)
Theorem check_service_terms_missing_record (o : oracle) (cdt dt : DT)
    (owner_address : Address) (signature : Signature) (is_owner : bool)
    (data : option TokenData) (ddo : option DDO.t) :
  o (CheckDtPerm dt cdt) = Returned false →
  o (CheckDtOwner dt owner_address) = Returned is_owner →
  o (ResolveAsset cdt) = Returned (data, ddo) →
  data = None ∨ ddo = None →
  outcome o (check_service_terms cdt dt owner_address signature) = inr false.
Proof.
  intros Hperm Hown Hres Hnone. unfold outcome. destruct is_owner.
  - erewrite check_service_terms_unresolved; eauto.
  - erewrite check_service_terms_not_owner; eauto.
Qed.

(** ** Publication *)

Lemma publish_dt_run (dt_to_id : DT → TokenId) (o : oracle) (ddo : DDO.t)
    (issuer_wallet : Wallet) :
  run o (publish_dt dt_to_id ddo issuer_wallet) =
  match o (IpfsAdd ddo) with
  | Returned ipfs_path =>
      let mint :=
        MintDt (dt_to_id (DDO.dt ddo)) (DDO.creator ddo)
          (negb (py_bool (DDO.child_dts ddo)))
          (proof_checksum (DDO.proof ddo)) ipfs_path issuer_wallet in
      match o mint with
      | Returned _ => ([IpfsAdd ddo; mint], inr ())
      | Failed what => ([IpfsAdd ddo; mint], inl (CollaboratorError what))
      end
  | Failed what => ([IpfsAdd ddo], inl (CollaboratorError what))
  end.
Proof.
  unfold publish_dt. cbn.
  destruct (o (IpfsAdd ddo)) as [ipfs_path|what]; cbn; [|reflexivity].
  destruct (o (MintDt _ _ _ _ _ _)) as [[]|what]; reflexivity.
Qed.

(** C6: [publish_dt] stores the document before it mints the token.  The
    first call of every execution is the store of the document; a mint, if
    one is made, comes after a store of this document that returned a
    locator, and it is made with that locator. *)
Theorem publish_dt_stores_before_minting (dt_to_id : DT → TokenId)
    (o : oracle) (ddo : DDO.t) (issuer_wallet : Wallet) (i : nat) (c : call) :
  trace o (publish_dt dt_to_id ddo issuer_wallet) !! i = Some c →
  is_mint c = true →
  ∃ j ipfs_path,
    j < i ∧
    trace o (publish_dt dt_to_id ddo issuer_wallet) !! j = Some (IpfsAdd ddo) ∧
    o (IpfsAdd ddo) = Returned ipfs_path ∧
    c = MintDt (dt_to_id (DDO.dt ddo)) (DDO.creator ddo)
          (negb (py_bool (DDO.child_dts ddo)))
          (proof_checksum (DDO.proof ddo)) ipfs_path issuer_wallet.
Proof.
  unfold trace. rewrite publish_dt_run.
  destruct (o (IpfsAdd ddo)) as [ipfs_path|what]; cbn.
  - intros Hi Hmint. exists 0, ipfs_path.
    destruct (o (MintDt _ _ _ _ _ _)) as [[]|what]; cbn in *;
      destruct i as [|[|i]]; cbn in Hi; simplify_eq; try discriminate;
      (split; [lia|auto]).
  - intros Hi Hmint. destruct i as [|i]; cbn in Hi; simplify_eq; discriminate.
Qed.

(** C7: [publish_dt] mints the token with the creator of the document as
    owner, with [isLeaf] true exactly when the document has no children
    (the negation of [is_cdt]), with the checksum of the document's proof,
    and with the locator the store returned for the document. *)
Theorem publish_dt_mints_record (dt_to_id : DT → TokenId) (o : oracle)
    (ddo : DDO.t) (issuer_wallet : Wallet) (ipfs_path : IpfsPath) :
  o (IpfsAdd ddo) = Returned ipfs_path →
  ∃ isLeaf,
    trace o (publish_dt dt_to_id ddo issuer_wallet)
    = [IpfsAdd ddo;
       MintDt (dt_to_id (DDO.dt ddo)) (DDO.creator ddo) isLeaf
         (proof_checksum (DDO.proof ddo)) ipfs_path issuer_wallet] ∧
    (isLeaf = true ↔ DDO.child_dts ddo = []) ∧
    isLeaf = negb (DDO.is_cdt ddo).
Proof.
  intros Hadd. exists (negb (py_bool (DDO.child_dts ddo))).
  unfold trace. rewrite publish_dt_run, Hadd. cbn.
  split; [destruct (o (MintDt _ _ _ _ _ _)) as [[]|what]; reflexivity|].
  unfold DDO.is_cdt. destruct (DDO.child_dts ddo); cbn; split; try done.
Qed.

(** ** Building a document *)

Lemma generate_ddo_run (checksum_of : DDO.t → Checksum) (o : oracle)
    (metadata : Metadata) (services : list Service.t)
    (owner_address : Address) (child_dts : option (list DT)) (verify : bool) :
  run o (generate_ddo checksum_of metadata services owner_address child_dts
           verify) =
  match o GenerateNewDt with
  | Returned new_dt =>
      let ddo :=
        assemble checksum_of metadata services owner_address child_dts new_dt in
      if verify then
        match o (VerifyServices ddo None None) with
        | Returned true => ([GenerateNewDt; VerifyServices ddo None None], inr ddo)
        | Returned false =>
            ([GenerateNewDt; VerifyServices ddo None None],
             inl (AssertionError service_error))
        | Failed what =>
            ([GenerateNewDt; VerifyServices ddo None None],
             inl (CollaboratorError what))
        end
      else ([GenerateNewDt], inr ddo)
  | Failed what => ([GenerateNewDt], inl (CollaboratorError what))
  end.
Proof.
  unfold generate_ddo, assemble. cbn.
  destruct (o GenerateNewDt) as [new_dt|what]; cbn; [|reflexivity].
  destruct verify; cbn; [|reflexivity].
  destruct (o (VerifyServices _ _ _)) as [[|]|what]; reflexivity.
Qed.

(** C10: with [verify=False], [generate_ddo] verifies nothing.  It returns
    the assembled document, which carries the identifier drawn and a proof,
    and the draw of the identifier is the only call it makes: whatever
    [verify_services] would say of the document, it is not asked.  An
    [AssertionError] can be the outcome only when [verify] is true. *)
Theorem generate_ddo_unverified (checksum_of : DDO.t → Checksum) (o : oracle)
    (metadata : Metadata) (services : list Service.t)
    (owner_address : Address) (child_dts : option (list DT)) (new_dt : DT) :
  o GenerateNewDt = Returned new_dt →
  let ddo :=
    assemble checksum_of metadata services owner_address child_dts new_dt in
  run o (generate_ddo checksum_of metadata services owner_address child_dts
           false) = ([GenerateNewDt], inr ddo) ∧
  DDO.dt ddo = new_dt ∧
  DDO.services ddo = services ∧
  (∃ unproved, DDO.proof ddo = {| proof_checksum := checksum_of unproved |}) ∧
  (∀ verify c,
     c ∈ trace o (generate_ddo checksum_of metadata services owner_address
                    child_dts verify) →
     is_verify_services c = true → verify = true) ∧
  (∀ verify msg,
     outcome o (generate_ddo checksum_of metadata services owner_address
                  child_dts verify) = inl (AssertionError msg) →
     verify = true).
Proof.
  intros Hdt ddo. split; [|split; [|split; [|split; [|split]]]].
  - rewrite generate_ddo_run, Hdt. reflexivity.
  - reflexivity.
  - unfold ddo, assemble. cbn.
    assert (Hfold : ∀ l d, DDO.services (foldl DDO.add_service d l)
                           = DDO.services d ++ l).
    { induction l as [|s l IH]; intros d; cbn.
      - by rewrite app_nil_r.
      - rewrite IH. cbn. by rewrite <- app_assoc. }
    rewrite Hfold. reflexivity.
  - eexists. reflexivity.
  - intros [|] c; [done|]. unfold trace. rewrite generate_ddo_run, Hdt. cbn.
    intros Hc Hv. apply list_elem_of_singleton in Hc. subst c. discriminate.
  - intros [|] msg; [done|]. unfold outcome. rewrite generate_ddo_run, Hdt.
    discriminate.
Qed.

Lemma foldl_add_service (ddo : DDO.t) (services : list Service.t) :
  foldl DDO.add_service ddo services
  = DDO.mk (DDO.dt ddo) (DDO.creator ddo) (DDO.metadata ddo)
      (DDO.services ddo ++ services) (DDO.child_dts ddo) (DDO.proof ddo).
Proof.
  revert ddo. induction services as [|service services IH]; intros ddo; cbn.
  - rewrite app_nil_r. by destruct ddo.
  - rewrite IH. cbn. by rewrite <- app_assoc.
Qed.

Lemma assemble_fields (checksum_of : DDO.t → Checksum) (metadata : Metadata)
    (services : list Service.t) (owner_address : Address)
    (child_dts : option (list DT)) (new_dt : DT) :
  assemble checksum_of metadata services owner_address child_dts new_dt
  = DDO.mk new_dt owner_address metadata services (default [] child_dts)
      {| proof_checksum :=
           checksum_of
             (DDO.mk new_dt owner_address metadata services
                (default [] child_dts) {| proof_checksum := "" |}) |}.
Proof. unfold assemble. rewrite foldl_add_service. reflexivity. Qed.




(** ** Listing the marketplace *)

Lemma zip4_identifiers {A B C D} (a : list A) (b : list B) (c : list C)
    (d : list D) :
  length b = length a → length c = length a → length d = length a →
  (zip4 a b c d).*1.*1.*1 = a.
Proof.
  revert b c d. induction a as [|x a IH]; intros [|y b] [|z c] [|w d];
    cbn; try done.
  intros [= Hb] [= Hc] [= Hd]. f_equal. by apply IH.
Qed.

Lemma marketplace_loop_app (id_bytes_to_dt : TokenId → DT) (o : oracle)
    (before rest : list (TokenId * string * IpfsPath * Checksum))
    (marketplace_list : list Entry.t) :
  Forall (smooth o) before →
  run o (marketplace_loop id_bytes_to_dt (before ++ rest) marketplace_list)
  = (concat (row_calls o <$> before) ++
     (run o (marketplace_loop id_bytes_to_dt rest
               (marketplace_list ++ omap (listed id_bytes_to_dt o) before))).1,
     (run o (marketplace_loop id_bytes_to_dt rest
               (marketplace_list ++ omap (listed id_bytes_to_dt o) before))).2).
Proof.
  intros Hbefore. revert marketplace_list.
  induction Hbefore as [|[[[dt issuer_name] ipfs_path] checksum] before
                          Hrow Hbefore IH]; intros marketplace_list.
  - cbn. rewrite app_nil_r. by destruct (run o _).
  - unfold smooth in Hrow. cbn -[String.eqb] in *.
    destruct (o (ResolveAssetByUrl ipfs_path)) as [[ddo|]|what];
      [| |contradiction].
    + destruct Hrow as [[main Hmain] [b Hb]].
      unfold py_item. rewrite Hmain. cbn -[String.eqb].
      destruct (py_ne_str (py_get main "type") "Algorithm");
        cbn -[String.eqb].
      * rewrite Hb. destruct b; cbn -[String.eqb].
        -- rewrite IH. cbn. by rewrite <- app_assoc.
        -- rewrite IH. reflexivity.
      * rewrite IH. reflexivity.
    + rewrite IH. reflexivity.
Qed.

Lemma answering_smooth (o : oracle)
    (row : TokenId * string * IpfsPath * Checksum) :
  (∀ url, ∃ d, o (ResolveAssetByUrl url) = Returned d) →
  (∀ ddo checksum, ∃ b, o (VerifyDdoIntegrity ddo checksum) = Returned b) →
  sectioned o →
  smooth o row.
Proof.
  intros Hres Hint Hmain. unfold smooth.
  destruct (Hres row.1.2) as [[ddo|] Hd]; rewrite Hd; [|done].
  split; [by eapply Hmain|apply Hint].
Qed.

Lemma marketplace_loop_run (id_bytes_to_dt : TokenId → DT) (o : oracle)
    (rows : list (TokenId * string * IpfsPath * Checksum))
    (marketplace_list : list Entry.t) :
  Forall (smooth o) rows →
  run o (marketplace_loop id_bytes_to_dt rows marketplace_list)
  = (concat (row_calls o <$> rows),
     inr (marketplace_list ++ omap (listed id_bytes_to_dt o) rows)).
Proof.
  intros Hrows.
  pose proof (marketplace_loop_app id_bytes_to_dt o rows [] marketplace_list
                Hrows) as Happ.
  rewrite app_nil_r in Happ. rewrite Happ. cbn. by rewrite app_nil_r.
Qed.

Lemma get_dt_marketplace_run (id_bytes_to_dt : TokenId → DT) (o : oracle)
    (dt_idx : list TokenId) (issuers : list Address)
    (checksums : list Checksum) (ipfs_paths : list IpfsPath)
    (issuer_names : list string) :
  o GetAvailableDts = Returned (dt_idx, issuers, checksums, ipfs_paths) →
  o (GetIssuerNames issuers) = Returned issuer_names →
  Forall (smooth o) (zip4 dt_idx issuer_names ipfs_paths checksums) →
  run o (get_dt_marketplace id_bytes_to_dt)
  = ([GetAvailableDts; GetIssuerNames issuers] ++
     concat (row_calls o <$> zip4 dt_idx issuer_names ipfs_paths checksums),
     inr (omap (listed id_bytes_to_dt o)
            (zip4 dt_idx issuer_names ipfs_paths checksums))).
Proof.
  intros Havail Hnames Hrows.
  unfold get_dt_marketplace. cbn. rewrite Havail. cbn. rewrite Hnames.
  rewrite (marketplace_loop_run id_bytes_to_dt o _ [] Hrows). reflexivity.
Qed.

(** C8 (as amended): when the four lists it zips have one length and every
    document the store resolves has the dictionary ['main'],
    [get_dt_marketplace] returns, in the order of the ledger, exactly one
    entry [{dt, issuer, name, fig, union_or_not}] for each registered token
    whose document resolves, is not of type [Algorithm] and matches the
    recorded checksum, and nothing for a token whose document resolves to
    nothing or does not match: such a token is left out, and the result is
    a list, not an error.  The ledger, the store and the verifier are taken
    to answer. *)
Theorem get_dt_marketplace_lists (id_bytes_to_dt : TokenId → DT) (o : oracle)
    (dt_idx : list TokenId) (issuers : list Address)
    (checksums : list Checksum) (ipfs_paths : list IpfsPath)
    (issuer_names : list string) :
  o GetAvailableDts = Returned (dt_idx, issuers, checksums, ipfs_paths) →
  o (GetIssuerNames issuers) = Returned issuer_names →
  (∀ url, ∃ d, o (ResolveAssetByUrl url) = Returned d) →
  (∀ ddo checksum, ∃ b, o (VerifyDdoIntegrity ddo checksum) = Returned b) →
  length issuer_names = length dt_idx →
  length ipfs_paths = length dt_idx →
  length checksums = length dt_idx →
  sectioned o →
  let rows := zip4 dt_idx issuer_names ipfs_paths checksums in
  outcome o (get_dt_marketplace id_bytes_to_dt)
  = inr (omap (listed id_bytes_to_dt o) rows) ∧
  rows.*1.*1.*1 = dt_idx ∧
  (∀ dt issuer_name ipfs_path checksum entry,
     listed id_bytes_to_dt o (dt, issuer_name, ipfs_path, checksum) = Some entry ↔
     ∃ ddo main,
       o (ResolveAssetByUrl ipfs_path) = Returned (Some ddo) ∧
       DDO.metadata ddo !! "main" = Some main ∧
       py_ne_str (py_get main "type") "Algorithm" = true ∧
       o (VerifyDdoIntegrity ddo checksum) = Returned true ∧
       entry = {| Entry.dt := id_bytes_to_dt dt;
                  Entry.issuer := issuer_name;
                  Entry.name := py_get main "name";
                  Entry.fig := py_get main "fig";
                  Entry.union_or_not := DDO.is_cdt ddo |}).
Proof.
  intros Havail Hnames Hres Hint Hlen1 Hlen2 Hlen3 Hmain rows.
  split; [|split].
  - unfold outcome.
    rewrite (get_dt_marketplace_run id_bytes_to_dt o dt_idx issuers checksums
               ipfs_paths issuer_names Havail Hnames); [reflexivity|].
    apply Forall_forall. intros row _. by apply answering_smooth.
  - by apply zip4_identifiers.
  - intros dt issuer_name ipfs_path checksum entry. unfold listed.
    destruct (Hres ipfs_path) as [[ddo|] Hd]; rewrite Hd.
    + destruct (Hmain _ _ Hd) as [main Hm]. rewrite Hm.
      destruct (Hint ddo checksum) as [b Hb]. cbn -[String.eqb]. rewrite Hb.
      destruct (py_ne_str (py_get main "type") "Algorithm") eqn:Hty;
        [destruct b|]; split; try discriminate.
      * intros [= <-]. exists ddo, main. auto.
      * intros (ddo' & main' & [= <-] & Hm' & _ & _ & ->).
        rewrite Hm in Hm'. by injection Hm' as <-.
      * intros (ddo' & main' & [= <-] & _ & _ & ? & _). congruence.
      * intros (ddo' & main' & [= <-] & Hm' & ? & _).
        rewrite Hm in Hm'. injection Hm' as <-. congruence.
    + split; [discriminate|]. intros (ddo' & main' & ? & _). discriminate.
Qed.

(** C8 as stated fails.  A token whose document resolves, has no type and
    matches the recorded checksum, but whose metadata lack ['main'], makes
    the whole listing end with [KeyError('main')].  A token that
    qualifies, but for which the asset provider returned no name, is not
    listed. *)
Lemma get_dt_marketplace_counterexample :
  (Demo.answers Demo.unsectioned (ResolveAssetByUrl "/ipfs/6")
   = Returned (Some Demo.ddo6) ∧
   Demo.answers Demo.unsectioned
     (VerifyDdoIntegrity Demo.ddo6 (proof_checksum (DDO.proof Demo.ddo6)))
   = Returned true ∧
   outcome (Demo.answers Demo.unsectioned)
     (get_dt_marketplace Demo.id_bytes_to_dt) = inl (KeyError "main")) ∧
  (∃ dt_idx issuers checksums ipfs_paths,
     naming ["org1"] (Demo.answers Demo.published) GetAvailableDts
     = Returned (dt_idx, issuers, checksums, ipfs_paths) ∧
     dt_idx !! 1 = Some "2" ∧ ipfs_paths !! 1 = Some "/ipfs/2" ∧
     checksums !! 1 = Some (proof_checksum (DDO.proof Demo.ddo2)) ∧
     naming ["org1"] (Demo.answers Demo.published) (ResolveAssetByUrl "/ipfs/2")
     = Returned (Some Demo.ddo2) ∧
     DDO.metadata Demo.ddo2 !! "main"
     = Some {[ "name" := VStr "dataset2"; "type" := VStr "Dataset" ]} ∧
     naming ["org1"] (Demo.answers Demo.published)
       (VerifyDdoIntegrity Demo.ddo2 (proof_checksum (DDO.proof Demo.ddo2)))
     = Returned true ∧
     outcome (naming ["org1"] (Demo.answers Demo.published))
       (get_dt_marketplace Demo.id_bytes_to_dt)
     = inr [Entry.mk Demo.dt1 "org1" (VStr "dataset1") VNone false]).
Proof.
  split.
  - split; [reflexivity|]. split; vm_compute; reflexivity.
  - eexists _, _, _, _. split; [reflexivity|].
    repeat split; vm_compute; reflexivity.
Qed.

(** ** Details of a token *)

Lemma outcome_bind {A B} (o : oracle) (p : prog A) (f : A → prog B) :
  outcome o (bind p f) =
  match outcome o p with
  | inr a => outcome o (f a)
  | inl e => inl e
  end.
Proof.
  unfold outcome. rewrite run_bind. destruct (run o p) as [t [e|a]]; reflexivity.
Qed.

Lemma outcome_mbind {A B} (o : oracle) (p : prog A) (f : A → prog B) :
  outcome o (p ≫= f) =
  match outcome o p with
  | inr a => outcome o (f a)
  | inl e => inl e
  end.
Proof. apply outcome_bind. Qed.

Lemma outcome_perform (o : oracle) (c : call) :
  outcome o (perform c) =
  match o c with
  | Returned x => inr x
  | Failed what => inl (CollaboratorError what)
  end.
Proof. unfold outcome, perform. cbn. destruct (o c); reflexivity. Qed.

Lemma outcome_perform_mbind {B} (o : oracle) (c : call)
    (f : ret_ty c → prog B) :
  outcome o (perform c ≫= f) =
  match o c with
  | Returned x => outcome o (f x)
  | Failed what => inl (CollaboratorError what)
  end.
Proof. rewrite outcome_mbind, outcome_perform. destruct (o c); reflexivity. Qed.

Lemma outcome_item {V B} (o : oracle) (d : gmap string V) (key : string)
    (f : V → prog B) :
  outcome o (py_item d key ≫= f) =
  match d !! key with
  | Some v => outcome o (f v)
  | None => inl (KeyError key)
  end.
Proof.
  rewrite outcome_mbind. unfold py_item. destruct (d !! key); reflexivity.
Qed.

(** C9: [get_dt_details] returns [None] when the token record or the
    document does not resolve, and when the document does not match the
    recorded checksum.  When it returns a record, the document resolved and
    matched, and the third component is the lineage the tracer rendered for
    the document when the document is composite, and [None] when it is
    not. *)
Theorem get_dt_details_absent_or_lineage (o : oracle) (dt : DT) :
  (∀ data ddo,
     o (ResolveAsset dt) = Returned (data, ddo) → data = None ∨ ddo = None →
     run o (get_dt_details dt) = ([ResolveAsset dt], inr None)) ∧
  (∀ data ddo,
     o (ResolveAsset dt) = Returned (Some data, Some ddo) →
     o (VerifyDdoIntegrity ddo (data_checksum data)) = Returned false →
     run o (get_dt_details dt)
     = ([ResolveAsset dt; VerifyDdoIntegrity ddo (data_checksum data)],
        inr None)) ∧
  (∀ dt_info service_lists union_data,
     outcome o (get_dt_details dt)
     = inr (Some (dt_info, service_lists, union_data)) →
     ∃ data ddo,
       o (ResolveAsset dt) = Returned (Some data, Some ddo) ∧
       o (VerifyDdoIntegrity ddo (data_checksum data)) = Returned true ∧
       if DDO.is_cdt ddo
       then ∃ union_paths tree,
              o (TraceDataUnion ddo [DDO.dt ddo]) = Returned union_paths ∧
              o (TreeFormat union_paths) = Returned tree ∧
              o (TreeToJson tree) = Returned union_data
       else union_data = VNone).
Proof.
  split; [|split].
  - intros data ddo Hres Hnone. unfold get_dt_details. answered Hres.
    destruct data, ddo; destruct Hnone; try discriminate; reflexivity.
  - intros data ddo Hres Hint. unfold get_dt_details.
    answered Hres. answered Hint. reflexivity.
  - intros dt_info service_lists union_data. unfold get_dt_details.
    rewrite (outcome_perform_mbind o (ResolveAsset dt)).
    destruct (o (ResolveAsset dt)) as [[[data|] [ddo|]]|w] eqn:Hres;
      cbn beta iota; try discriminate.
    rewrite (outcome_perform_mbind o
               (VerifyDdoIntegrity ddo (data_checksum data))).
    destruct (o (VerifyDdoIntegrity _ _)) as [[|]|w] eqn:Hint;
      cbn [negb]; cbn beta iota; try discriminate.
    rewrite (outcome_perform_mbind o (GetEnterprise (data_issuer data))).
    destruct (o (GetEnterprise _)) as [[|issuer_name rest]|w] eqn:Hent;
      try discriminate.
    rewrite outcome_mbind. cbn [py_item0].
    change (outcome o (Ret issuer_name)) with (@inr exn pyval issuer_name).
    cbn beta iota. rewrite outcome_item.
    destruct (DDO.metadata ddo !! "main") as [main|] eqn:Hmain;
      [|discriminate].
    cbn beta. repeat (rewrite outcome_item, Hmain; cbn beta).
    rewrite outcome_mbind. intros Hout.
    exists data, ddo. split; [done|]. split; [done|].
    destruct (DDO.is_cdt ddo).
    + rewrite (outcome_perform_mbind o (TraceDataUnion ddo [DDO.dt ddo]))
        in Hout.
      destruct (o (TraceDataUnion _ _)) as [union_paths|w] eqn:Hpaths;
        try discriminate.
      cbn beta in Hout.
      rewrite (outcome_perform_mbind o (TreeFormat union_paths)) in Hout.
      destruct (o (TreeFormat _)) as [tree|w] eqn:Htree; try discriminate.
      cbn beta in Hout.
      pose proof (outcome_perform o (TreeToJson tree)) as Hjs.
      cbn [ret_ty] in Hjs. rewrite Hjs in Hout. clear Hjs.
      destruct (o (TreeToJson _)) as [json|w] eqn:Hjson; try discriminate.
      rewrite outcome_mbind in Hout.
      destruct (outcome o (service_loop _ _)) as [e|sl]; try discriminate.
      injection Hout as _ _ <-. eauto.
    + change (outcome o (Ret VNone)) with (@inr exn pyval VNone) in Hout.
      cbn beta iota in Hout. rewrite outcome_mbind in Hout.
      destruct (outcome o (service_loop _ _)) as [e|sl]; try discriminate.
      injection Hout as _ _ <-. reflexivity.
Qed.

(** ** The properties on the scenario of the tests *)

Import Demo.

(** A world all of whose stored documents have the dictionary ['main']. *)
Lemma answers_sectioned (w : world) :
  map_Forall (λ _ ddo, is_Some (DDO.metadata ddo !! "main")) (documents w) →
  sectioned (answers w).
Proof.
  intros Hall url ddo Hres. cbn in Hres. injection Hres as Hres.
  exact (Hall url ddo Hres).
Qed.

Lemma granted_sectioned : sectioned (answers granted).
Proof.
  apply answers_sectioned. apply (bool_decide_unpack _). vm_compute. exact I.
Qed.

(** After the grants, a request for the first dataset by the union is
    accepted whatever the signature. *)
Lemma check_service_terms_granted_witness :
  answers granted (CheckDtPerm dt1 dt3) = Returned true ∧
  run (answers granted) (check_service_terms dt3 dt1 org1 "corrupted")
  = ([CheckDtPerm dt1 dt3], inr true).
Proof.
  split; [reflexivity|].
  apply (check_service_terms_granted (answers granted) dt3 dt1 org1 "corrupted").
  reflexivity.
Defined.

(** Before the grants, the request signed by the third organisation over
    its address and the identifier of the union passes the five checks. *)
Lemma check_service_terms_ungranted_witness :
  answers published (CheckDtPerm dt1 dt3) = Returned false ∧
  outcome (answers published)
    (check_service_terms dt3 dt1 org1 (sign org3 (org3 +:+ dt3))) = inr true.
Proof.
  split; [reflexivity|].
  apply (proj1 (check_service_terms_ungranted (answers published) dt3 dt1 org1
                  (sign org3 (org3 +:+ dt3)) eq_refl)).
  split; [reflexivity|].
  exists (minted ddo3).2.1, ddo3.
  repeat split; vm_compute; reflexivity.
Defined.

(** The document of the second dataset is lost: a request that names it as
    the composite is refused. *)
Lemma check_service_terms_missing_record_witness :
  answers damaged (CheckDtPerm dt1 dt2) = Returned false ∧
  answers damaged (CheckDtOwner dt1 org1) = Returned true ∧
  answers damaged (ResolveAsset dt2) = Returned (Some (minted ddo2).2.1, None) ∧
  outcome (answers damaged)
    (check_service_terms dt2 dt1 org1 (sign org2 (org2 +:+ dt2))) = inr false.
Proof.
  split; [reflexivity|]. split; [reflexivity|]. split; [reflexivity|].
  apply (check_service_terms_missing_record (answers damaged) dt2 dt1 org1
           (sign org2 (org2 +:+ dt2)) true (Some (minted ddo2).2.1) None);
    [reflexivity|reflexivity|reflexivity|right; reflexivity].
Defined.

(** The second call of the publication of the algorithm is the mint. *)
Lemma publish_dt_stores_before_minting_witness :
  let mint := MintDt "4" org3 false (proof_checksum (DDO.proof ddo4))
                "/ipfs/4" "wallet3" in
  trace (answers granted) (publish_dt dt_to_id ddo4 "wallet3") !! 1 = Some mint ∧
  is_mint mint = true ∧
  ∃ j ipfs_path,
    j < 1 ∧
    trace (answers granted) (publish_dt dt_to_id ddo4 "wallet3") !! j
    = Some (IpfsAdd ddo4) ∧
    answers granted (IpfsAdd ddo4) = Returned ipfs_path ∧
    mint = MintDt (dt_to_id (DDO.dt ddo4)) (DDO.creator ddo4)
             (negb (py_bool (DDO.child_dts ddo4)))
             (proof_checksum (DDO.proof ddo4)) ipfs_path "wallet3".
Proof.
  intros mint. split; [reflexivity|]. split; [reflexivity|].
  apply (publish_dt_stores_before_minting dt_to_id (answers granted) ddo4
           "wallet3" 1 mint); reflexivity.
Defined.

Lemma publish_dt_mints_record_witness :
  answers granted (IpfsAdd ddo1) = Returned "/ipfs/1" ∧
  ∃ isLeaf,
    trace (answers granted) (publish_dt dt_to_id ddo1 "wallet1")
    = [IpfsAdd ddo1;
       MintDt (dt_to_id (DDO.dt ddo1)) (DDO.creator ddo1) isLeaf
         (proof_checksum (DDO.proof ddo1)) "/ipfs/1" "wallet1"] ∧
    (isLeaf = true ↔ DDO.child_dts ddo1 = []) ∧
    isLeaf = negb (DDO.is_cdt ddo1).
Proof.
  split; [reflexivity|].
  apply (publish_dt_mints_record dt_to_id (answers granted) ddo1 "wallet1"
           "/ipfs/1").
  reflexivity.
Defined.

(** A document that [verify_services] would reject is built all the same
    when verification is switched off. *)
Lemma generate_ddo_unverified_witness :
  answers published GenerateNewDt = Returned dt4 ∧
  answers published
    (VerifyServices
       (assemble checksum_of (metadata_of "stray" "Dataset") [stray_service]
          org3 (Some [dt1]) dt4) None None) = Returned false ∧
  run (answers published)
    (generate_ddo checksum_of (metadata_of "stray" "Dataset") [stray_service]
       org3 (Some [dt1]) false)
  = ([GenerateNewDt],
     inr (assemble checksum_of (metadata_of "stray" "Dataset") [stray_service]
            org3 (Some [dt1]) dt4)).
Proof.
  split; [reflexivity|]. split; [reflexivity|].
  apply (generate_ddo_unverified checksum_of (answers published)
           (metadata_of "stray" "Dataset") [stray_service] org3 (Some [dt1])
           dt4).
  reflexivity.
Defined.

(** The marketplace after the grants: the two datasets and their union; the
    algorithm is not shown. *)
Lemma get_dt_marketplace_lists_witness :
  answers granted GetAvailableDts
  = Returned (["1"; "2"; "3"; "4"], [org1; org2; org3; org3],
              [proof_checksum (DDO.proof ddo1); proof_checksum (DDO.proof ddo2);
               proof_checksum (DDO.proof ddo3); proof_checksum (DDO.proof ddo4)],
              ["/ipfs/1"; "/ipfs/2"; "/ipfs/3"; "/ipfs/4"]) ∧
  answers granted (GetIssuerNames [org1; org2; org3; org3])
  = Returned ["org1"; "org2"; "org3"; "org3"] ∧
  outcome (answers granted) (get_dt_marketplace id_bytes_to_dt)
  = inr [Entry.mk dt1 "org1" (VStr "dataset1") VNone false;
         Entry.mk dt2 "org2" (VStr "dataset2") VNone false;
         Entry.mk dt3 "org3" (VStr "data union") VNone true].
Proof.
  split; [reflexivity|]. split; [reflexivity|].
  rewrite (proj1 (get_dt_marketplace_lists id_bytes_to_dt (answers granted)
                    ["1"; "2"; "3"; "4"] [org1; org2; org3; org3]
                    ([proof_checksum (DDO.proof ddo1); proof_checksum (DDO.proof ddo2);
               proof_checksum (DDO.proof ddo3); proof_checksum (DDO.proof ddo4)])
                    ["/ipfs/1"; "/ipfs/2"; "/ipfs/3"; "/ipfs/4"]
                    ["org1"; "org2"; "org3"; "org3"]
                    eq_refl eq_refl
                    (λ url, ex_intro _ (documents granted !! url) eq_refl)
                    (λ ddo checksum,
                       ex_intro _ (bool_decide (checksum_of ddo = checksum))
                         eq_refl)
                    eq_refl eq_refl eq_refl granted_sectioned)).
  vm_compute. reflexivity.
Defined.

(** With a damaged store, the second dataset, whose document is lost, and
    the union, whose document was altered, are left out. *)
Example get_dt_marketplace_damaged :
  outcome (answers damaged) (get_dt_marketplace id_bytes_to_dt)
  = inr [Entry.mk dt1 "org1" (VStr "dataset1") VNone false].
Proof. vm_compute. reflexivity. Qed.

(** The details of the union carry the lineage the tracer rendered; the
    details of a dataset carry none; a lost or altered document gives no
    details. *)
Lemma get_dt_details_absent_or_lineage_witness :
  run (answers damaged) (get_dt_details dt2) = ([ResolveAsset dt2], inr None) ∧
  outcome (answers damaged) (get_dt_details dt3) = inr None ∧
  (∃ dt_info service_lists,
     outcome (answers granted) (get_dt_details dt1)
     = inr (Some (dt_info, service_lists, VNone))) ∧
  ∃ data ddo,
    answers granted (ResolveAsset dt3) = Returned (Some data, Some ddo) ∧
    answers granted (VerifyDdoIntegrity ddo (data_checksum data))
    = Returned true ∧
    if DDO.is_cdt ddo
    then ∃ union_paths tree,
           answers granted (TraceDataUnion ddo [DDO.dt ddo])
           = Returned union_paths ∧
           answers granted (TreeFormat union_paths) = Returned tree ∧
           answers granted (TreeToJson tree) = Returned (VDict [(dt3, VNone)])
    else VDict [(dt3, VNone)] = VNone.
Proof.
  split; [|split; [|split]].
  - apply (proj1 (get_dt_details_absent_or_lineage (answers damaged) dt2)
             (Some (minted ddo2).2.1) None); [reflexivity|right; reflexivity].
  - vm_compute. reflexivity.
  - eexists _, _. vm_compute. reflexivity.
  - apply (proj2 (proj2 (get_dt_details_absent_or_lineage (answers granted) dt3))
      (DtInfo.mk (VStr "data union") org3 (VStr "org3") VNone (VStr "Dataset")
         VNone)
      [ServiceInfo.mk "sid0_for_cdt1" VNone (VInt 20)
         (Service.descriptor service3)]
      (VDict [(dt3, VNone)])).
    vm_compute. reflexivity.
Defined.

(** ** Further runs of the scenario *)

Example zip4_shortest :
  zip4 [1; 2; 3] ["a"; "b"] [true; false; true] [4; 5; 6]
  = [(1, "a", true, 4); (2, "b", false, 5)].
Proof. reflexivity. Qed.

Example py_ne_str_algorithm :
  py_ne_str (VStr "Algorithm") "Algorithm" = false ∧
  py_ne_str (VStr "Dataset") "Algorithm" = true ∧
  py_ne_str VNone "Algorithm" = true.
Proof. repeat split. Qed.

(** A corrupted signature is refused when no grant exists: the call stops
    at the signature, the fourth call. *)
Example check_service_terms_corrupted_signature :
  outcome (answers published) (check_service_terms dt3 dt1 org1 "corrupted")
  = inr false ∧
  length (trace (answers published)
            (check_service_terms dt3 dt1 org1 "corrupted")) = 4.
Proof. split; vm_compute; reflexivity. Qed.

(** Another address than the owner's is refused at the second call. *)
Example check_service_terms_wrong_owner :
  run (answers published)
    (check_service_terms dt3 dt1 org2 (sign org3 (org3 +:+ dt3)))
  = ([CheckDtPerm dt1 dt3; CheckDtOwner dt1 org2], inr false).
Proof. vm_compute. reflexivity. Qed.

(** An altered document is refused at the integrity check, the fifth call. *)
Example check_service_terms_altered_document :
  outcome (answers damaged)
    (check_service_terms dt3 dt1 org1 (sign org3 (org3 +:+ dt3))) = inr false ∧
  length (trace (answers damaged)
            (check_service_terms dt3 dt1 org1 (sign org3 (org3 +:+ dt3)))) = 5.
Proof. split; vm_compute; reflexivity. Qed.

(** A service without a price makes the details of its token fail. *)
Example service_loop_missing_price :
  outcome (answers published) (service_loop [service1; stray_service] [])
  = inl (KeyError "price").
Proof. vm_compute. reflexivity. Qed.

(** ** Programs: calls made, exceptions raised, number of calls *)

Lemma trace_bind {A B} (o : oracle) (p : prog A) (f : A → prog B) :
  trace o (bind p f) =
  match outcome o p with
  | inr a => trace o p ++ trace o (f a)
  | inl e => trace o p
  end.
Proof.
  unfold trace, outcome. rewrite run_bind.
  destruct (run o p) as [t [e|a]]; reflexivity.
Qed.

Lemma trace_mbind {A B} (o : oracle) (p : prog A) (f : A → prog B) :
  trace o (p ≫= f) =
  match outcome o p with
  | inr a => trace o p ++ trace o (f a)
  | inl e => trace o p
  end.
Proof. apply trace_bind. Qed.

Lemma only_bind (P : call → Prop) {A B} (p : prog A) (f : A → prog B) :
  only P p → (∀ a, only P (f a)) → only P (bind p f).
Proof.
  intros Hp Hf. induction Hp as [r|e|c k Hc Hk IH]; cbn.
  - apply Hf.
  - apply only_raise.
  - apply only_vis; [exact Hc|exact IH].
Qed.

Lemma only_trace (P : call → Prop) {R} (p : prog R) (o : oracle) :
  only P p → Forall P (trace o p).
Proof.
  unfold trace. intros Hp. induction Hp as [r|e|c k Hc Hk IH]; cbn.
  - constructor.
  - constructor.
  - destruct (o c) as [x|what]; cbn.
    + specialize (IH x). destruct (run o (k x)) as [t r]. cbn in *.
      constructor; assumption.
    + constructor; [assumption|constructor].
Qed.

Lemma raises_only_bind (E : exn → Prop) {A B} (p : prog A) (f : A → prog B) :
  raises_only E p → (∀ a, raises_only E (f a)) → raises_only E (bind p f).
Proof.
  intros Hp Hf. induction Hp as [r|e He|c k Hk IH]; cbn.
  - apply Hf.
  - apply raises_only_raise, He.
  - apply raises_only_vis, IH.
Qed.

(** An exception a program ends with is one of its own or the failure of
    the last collaborator it called. *)
Lemma raises_only_outcome (E : exn → Prop) {R} (p : prog R) (o : oracle)
    (e : exn) :
  raises_only E p → outcome o p = inl e → E e ∨ passed_on o p e.
Proof.
  unfold passed_on, outcome, trace. intros Hp.
  induction Hp as [r|e' He|c k Hk IH]; cbn.
  - discriminate.
  - intros [= <-]. left. exact He.
  - destruct (o c) as [x|what] eqn:Hc; cbn.
    + specialize (IH x). destruct (run o (k x)) as [t r]. cbn in *.
      intros Hr. destruct (IH Hr) as [?|(c' & what & Hlast & Hfail & ->)];
        [left; assumption|right].
      exists c', what. split; [|split; [assumption|reflexivity]].
      destruct t as [|c'' t]; [discriminate|]. exact Hlast.
    + intros [= <-]. right. exists c, what. auto.
Qed.

(** A program that returns a value was answered by every collaborator it
    called. *)
Lemma returned_answered {R} (p : prog R) (o : oracle) (r : R) :
  outcome o p = inr r → Forall (λ c, ∃ x, o c = Returned x) (trace o p).
Proof.
  unfold outcome, trace. induction p as [r'|e|c k IH]; cbn.
  - constructor.
  - discriminate.
  - destruct (o c) as [x|what] eqn:Hc; cbn; [|discriminate].
    specialize (IH x). destruct (run o (k x)) as [t r']. cbn in *.
    intros Hr. constructor; [eauto|auto].
Qed.

Lemma within_le {R} (n m : nat) (p : prog R) :
  within n p → (n ≤ m)%nat → within m p.
Proof.
  intros Hp. revert m. induction Hp as [n r|n e|n c k Hk IH]; intros m Hle.
  - apply within_ret.
  - apply within_raise.
  - destruct m as [|m]; [lia|]. apply within_vis. intros x. apply IH. lia.
Qed.


Lemma within_trace {R} (n : nat) (p : prog R) (o : oracle) :
  within n p → (length (trace o p) ≤ n)%nat.
Proof.
  unfold trace. intros Hp. induction Hp as [n r|n e|n c k Hk IH]; cbn.
  - lia.
  - lia.
  - destruct (o c) as [x|what]; cbn; [|lia].
    specialize (IH x). destruct (run o (k x)) as [t r]. cbn in *. lia.
Qed.

(** Walk through a program, call by call and branch by branch. *)
Ltac walk :=
  repeat (cbn -[String.append]; try unfold mbind, prog_bind;
    try unfold py_item0; try unfold py_item; try unfold perform;
    lazymatch goal with
    | |- only _ (Ret _) => apply only_ret
    | |- only _ (Raise _) => apply only_raise
    | |- only _ (Vis _ _) => apply only_vis; [done|intros ?]
    | |- only _ (bind _ _) => apply only_bind; [|intros ?]
    | |- raises_only _ (Ret _) => apply raises_only_ret
    | |- raises_only _ (Raise _) => apply raises_only_raise; auto
    | |- raises_only _ (Vis _ _) => apply raises_only_vis; intros ?
    | |- raises_only _ (bind _ _) => apply raises_only_bind; [|intros ?]
    | |- within _ (Ret _) => apply within_ret
    | |- within _ (Raise _) => apply within_raise
    | |- within _ (Vis _ _) => apply within_vis; intros ?
    | |- _ (match ?x with _ => _ end) => destruct x
    end).

(** *** The loops *)

Lemma mapM_cons {A B} (f : A → option B) (x : A) (l : list A) :
  mapM f (x :: l) = y ← f x; k ← mapM f l; Some (y :: k).
Proof. reflexivity. Qed.

Lemma service_info_priced (service : Service.t) (price : pyval) :
  Service.attributes service !! "price" = Some price →
  service_info service
  = Some {| ServiceInfo.sid := Service.index service;
            ServiceInfo.op := py_get (Service.attributes service) "op_name";
            ServiceInfo.price := price;
            ServiceInfo.constrains := Service.descriptor service |}.
Proof. intros H. unfold service_info. rewrite H. reflexivity. Qed.

Lemma service_info_unpriced (service : Service.t) :
  Service.attributes service !! "price" = None → service_info service = None.
Proof. intros H. unfold service_info. rewrite H. reflexivity. Qed.

Lemma service_loop_run (o : oracle) (services : list Service.t)
    (service_lists : list ServiceInfo.t) :
  run o (service_loop services service_lists) =
  ([], match mapM service_info services with
       | Some infos => inr (service_lists ++ infos)
       | None => inl (KeyError "price")
       end).
Proof.
  revert service_lists.
  induction services as [|service services IH]; intros service_lists.
  - cbn. by rewrite app_nil_r.
  - rewrite (mapM_cons service_info). cbn -[mapM service_info]. unfold py_item.
    destruct (Service.attributes service !! "price") as [price|] eqn:Hprice.
    + rewrite (service_info_priced _ _ Hprice). cbn -[mapM service_info].
      rewrite IH. destruct (mapM service_info services) as [infos|]; cbn;
        [|reflexivity].
      by rewrite <- app_assoc.
    + rewrite (service_info_unpriced _ Hprice). reflexivity.
Qed.

Lemma service_info_sid (services : list Service.t) (infos : list ServiceInfo.t) :
  mapM service_info services = Some infos →
  ServiceInfo.sid <$> infos = Service.index <$> services ∧
  ServiceInfo.constrains <$> infos = Service.descriptor <$> services.
Proof.
  revert infos. induction services as [|service services IH]; intros infos.
  - cbn. intros [= <-]. done.
  - rewrite (mapM_cons service_info).
    destruct (Service.attributes service !! "price") as [price|] eqn:Hprice.
    + rewrite (service_info_priced _ _ Hprice). cbn -[mapM service_info].
      destruct (mapM service_info services) as [infos'|]; cbn; [|discriminate].
      intros [= <-]. destruct (IH infos' eq_refl) as [Hs Hc]. cbn.
      by rewrite Hs, Hc.
    + rewrite (service_info_unpriced _ Hprice). discriminate.
Qed.

Lemma service_info_missing (services : list Service.t) (service : Service.t) :
  service ∈ services → Service.attributes service !! "price" = None →
  mapM service_info services = None.
Proof.
  intros Hin Hprice. induction Hin as [service services|service s services Hin IH].
  - rewrite (mapM_cons service_info), (service_info_unpriced _ Hprice).
    reflexivity.
  - rewrite (mapM_cons service_info), IH by assumption.
    destruct (service_info s); reflexivity.
Qed.

Lemma service_loop_only (P : call → Prop) (services : list Service.t)
    (service_lists : list ServiceInfo.t) :
  only P (service_loop services service_lists).
Proof.
  revert service_lists. induction services as [|service services IH];
    intros service_lists; cbn; [apply only_ret|].
  unfold py_item. destruct (Service.attributes service !! "price"); cbn.
  - apply IH.
  - apply only_raise.
Qed.

Lemma service_loop_raises (services : list Service.t)
    (service_lists : list ServiceInfo.t) :
  raises_only (λ e, e = KeyError "price")
    (service_loop services service_lists).
Proof.
  revert service_lists. induction services as [|service services IH];
    intros service_lists; cbn; [apply raises_only_ret|].
  unfold py_item. destruct (Service.attributes service !! "price"); cbn.
  - apply IH.
  - by apply raises_only_raise.
Qed.


Lemma marketplace_loop_only (id_bytes_to_dt : TokenId → DT)
    (rows : list (TokenId * string * IpfsPath * Checksum))
    (marketplace_list : list Entry.t) :
  only (λ c, is_write c = false)
    (marketplace_loop id_bytes_to_dt rows marketplace_list).
Proof.
  revert marketplace_list.
  induction rows as [|[[[dt issuer_name] ipfs_path] checksum] rows IH];
    intros marketplace_list; [apply only_ret|].
  cbn -[String.eqb]. apply only_vis; [done|]. intros [ddo|]; [|apply IH].
  unfold py_item.
  destruct (DDO.metadata ddo !! "main") as [main|]; cbn -[String.eqb];
    [|apply only_raise].
  destruct (py_ne_str _ _); [|apply IH].
  cbn -[String.eqb]. apply only_vis; [done|]. intros [|]; apply IH.
Qed.

Lemma marketplace_loop_raises (id_bytes_to_dt : TokenId → DT)
    (rows : list (TokenId * string * IpfsPath * Checksum))
    (marketplace_list : list Entry.t) :
  raises_only (λ e, e = KeyError "main")
    (marketplace_loop id_bytes_to_dt rows marketplace_list).
Proof.
  revert marketplace_list.
  induction rows as [|[[[dt issuer_name] ipfs_path] checksum] rows IH];
    intros marketplace_list; [apply raises_only_ret|].
  cbn -[String.eqb]. apply raises_only_vis. intros [ddo|]; [|apply IH].
  unfold py_item.
  destruct (DDO.metadata ddo !! "main") as [main|]; cbn -[String.eqb];
    [|by apply raises_only_raise].
  destruct (py_ne_str _ _); [|apply IH].
  cbn -[String.eqb]. apply raises_only_vis. intros [|]; apply IH.
Qed.

Lemma marketplace_loop_within (id_bytes_to_dt : TokenId → DT)
    (rows : list (TokenId * string * IpfsPath * Checksum))
    (marketplace_list : list Entry.t) :
  within (2 * length rows)
    (marketplace_loop id_bytes_to_dt rows marketplace_list).
Proof.
  revert marketplace_list.
  induction rows as [|[[[dt issuer_name] ipfs_path] checksum] rows IH];
    intros marketplace_list; [apply within_ret|].
  cbn [length]. replace (2 * S (length rows)) with (S (S (2 * length rows)))
    by lia.
  cbn -[String.eqb Nat.mul]. apply within_vis.
  intros [ddo|]; [|eapply within_le; [apply IH|lia]].
  unfold py_item.
  destruct (DDO.metadata ddo !! "main") as [main|]; cbn -[String.eqb Nat.mul];
    [|apply within_raise].
  destruct (py_ne_str _ _); [|eapply within_le; [apply IH|lia]].
  cbn -[String.eqb Nat.mul]. apply within_vis. intros [|]; apply IH.
Qed.

(** *** The methods *)

Lemma check_service_terms_only (cdt dt : DT) (owner_address : Address)
    (signature : Signature) :
  only (λ c, is_write c = false ∧
             (is_grant_lookup c = true → c = CheckDtPerm dt cdt))
    (check_service_terms cdt dt owner_address signature).
Proof. unfold check_service_terms. walk. Qed.

Lemma check_service_terms_raises (cdt dt : DT) (owner_address : Address)
    (signature : Signature) :
  raises_only (λ _, False)
    (check_service_terms cdt dt owner_address signature).
Proof. unfold check_service_terms. walk. Qed.

Lemma check_service_terms_within (cdt dt : DT) (owner_address : Address)
    (signature : Signature) :
  within 6 (check_service_terms cdt dt owner_address signature).
Proof. unfold check_service_terms. walk. Qed.

Lemma get_dt_marketplace_only (id_bytes_to_dt : TokenId → DT) :
  only (λ c, is_write c = false) (get_dt_marketplace id_bytes_to_dt).
Proof. unfold get_dt_marketplace. walk. apply marketplace_loop_only. Qed.

Lemma get_dt_marketplace_raises (id_bytes_to_dt : TokenId → DT) :
  raises_only (λ e, e = KeyError "main") (get_dt_marketplace id_bytes_to_dt).
Proof. unfold get_dt_marketplace. walk. apply marketplace_loop_raises. Qed.

Lemma get_dt_details_only (dt : DT) :
  only (λ c, is_write c = false) (get_dt_details dt).
Proof. unfold get_dt_details. walk; apply service_loop_only. Qed.

Lemma get_dt_details_raises (dt : DT) :
  raises_only (λ e, e = IndexError ∨ e = KeyError "main" ∨ e = KeyError "price")
    (get_dt_details dt).
Proof.
  assert (Hloop : ∀ services service_lists,
            raises_only
              (λ e, e = IndexError ∨ e = KeyError "main" ∨ e = KeyError "price")
              (service_loop services service_lists)).
  { induction services as [|service services IH]; intros service_lists; cbn;
      [apply raises_only_ret|].
    unfold py_item. destruct (Service.attributes service !! "price"); cbn.
    - apply IH.
    - apply raises_only_raise. auto. }
  unfold get_dt_details. walk; apply Hloop.
Qed.


Lemma generate_ddo_only (checksum_of : DDO.t → Checksum) (metadata : Metadata)
    (services : list Service.t) (owner_address : Address)
    (child_dts : option (list DT)) (verify : bool) :
  only (λ c, is_write c = false)
    (generate_ddo checksum_of metadata services owner_address child_dts verify).
Proof. unfold generate_ddo. walk. Qed.

Lemma generate_ddo_raises (checksum_of : DDO.t → Checksum) (metadata : Metadata)
    (services : list Service.t) (owner_address : Address)
    (child_dts : option (list DT)) (verify : bool) :
  raises_only (λ e, e = AssertionError service_error)
    (generate_ddo checksum_of metadata services owner_address child_dts verify).
Proof. unfold generate_ddo. walk. Qed.

Lemma publish_dt_raises (dt_to_id : DT → TokenId) (ddo : DDO.t)
    (issuer_wallet : Wallet) :
  raises_only (λ _, False) (publish_dt dt_to_id ddo issuer_wallet).
Proof. unfold publish_dt. walk. Qed.

Lemma grant_dt_perm_raises (dt_to_id : DT → TokenId) (dt grantee : DT)
    (owner_wallet : Wallet) :
  raises_only (λ _, False) (grant_dt_perm dt_to_id dt grantee owner_wallet).
Proof. unfold grant_dt_perm. walk. Qed.

Lemma activate_cdt_raises (dt_to_id : DT → TokenId) (cdt : DT)
    (child_dts : list DT) (aggregator_wallet : Wallet) :
  raises_only (λ _, False)
    (activate_cdt dt_to_id cdt child_dts aggregator_wallet).
Proof. unfold activate_cdt. walk. Qed.



(** Two oracles that agree on the calls a program can make give the same
    run. *)
Lemma only_run_ext (P : call → Prop) {R} (p : prog R) (o o' : oracle) :
  only P p → (∀ c, P c → o c = o' c) → run o p = run o' p.
Proof.
  intros Hp Hext. induction Hp as [r|e|c k Hc Hk IH]; cbn; try reflexivity.
  rewrite <- (Hext c Hc). destruct (o c) as [x|what]; [|reflexivity].
  rewrite (IH x). reflexivity.
Qed.

(** ** More on the authorization of a compute request *)

(** X1: [check_service_terms] starts with the lookup of the grant from [dt]
    to [cdt], makes at most six calls, and none of them writes to the store
    or to the ledger, whatever the collaborators answer. *)
Theorem check_service_terms_reads_little (o : oracle) (cdt dt : DT)
    (owner_address : Address) (signature : Signature) :
  head (trace o (check_service_terms cdt dt owner_address signature))
  = Some (CheckDtPerm dt cdt) ∧
  (length (trace o (check_service_terms cdt dt owner_address signature)) ≤ 6)%nat ∧
  Forall (λ c, is_write c = false)
    (trace o (check_service_terms cdt dt owner_address signature)).
Proof.
  split; [|split].
  - unfold trace, check_service_terms. cbn.
    destruct (o (CheckDtPerm dt cdt)) as [x|what]; [|reflexivity].
    destruct (run o _). reflexivity.
  - apply within_trace, check_service_terms_within.
  - eapply Forall_impl;
      [apply only_trace, check_service_terms_only|]. cbn. tauto.
Qed.

(** X2: the decision on [dt] and [cdt] looks at no other grant than the one
    from [dt] to [cdt]: two ledgers that differ in other grants only, all
    other answers being the same, give the same run. *)
Theorem check_service_terms_other_grants_ignored (o o' : oracle) (cdt dt : DT)
    (owner_address : Address) (signature : Signature) :
  (∀ c, (is_grant_lookup c = true → c = CheckDtPerm dt cdt) → o c = o' c) →
  run o (check_service_terms cdt dt owner_address signature)
  = run o' (check_service_terms cdt dt owner_address signature).
Proof.
  intros Hsame. eapply only_run_ext; [apply check_service_terms_only|].
  cbn. intros c [_ Hc]. apply Hsame, Hc.
Qed.

(** X3: [check_service_terms], [publish_dt], [grant_dt_perm] and
    [activate_cdt] raise no exception of their own: an exception they end
    with is the failure of the collaborator they called last.  And when
    [check_service_terms] returns a value, [True] or [False], or
    [get_dt_marketplace] returns a list, every collaborator called has
    answered: a failure is turned neither into a denial nor into a shorter
    list. *)
Theorem asset_service_passes_failures_on (dt_to_id : DT → TokenId)
    (id_bytes_to_dt : TokenId → DT) (o : oracle) (e : exn) :
  (∀ cdt dt owner_address signature,
     outcome o (check_service_terms cdt dt owner_address signature) = inl e →
     passed_on o (check_service_terms cdt dt owner_address signature) e) ∧
  (∀ ddo issuer_wallet,
     outcome o (publish_dt dt_to_id ddo issuer_wallet) = inl e →
     passed_on o (publish_dt dt_to_id ddo issuer_wallet) e) ∧
  (∀ dt grantee owner_wallet,
     outcome o (grant_dt_perm dt_to_id dt grantee owner_wallet) = inl e →
     passed_on o (grant_dt_perm dt_to_id dt grantee owner_wallet) e) ∧
  (∀ cdt child_dts aggregator_wallet,
     outcome o (activate_cdt dt_to_id cdt child_dts aggregator_wallet) = inl e →
     passed_on o (activate_cdt dt_to_id cdt child_dts aggregator_wallet) e) ∧
  (∀ cdt dt owner_address signature (decision : bool),
     outcome o (check_service_terms cdt dt owner_address signature)
     = inr decision →
     Forall (λ c, ∃ x, o c = Returned x)
       (trace o (check_service_terms cdt dt owner_address signature))) ∧
  (∀ marketplace_list,
     outcome o (get_dt_marketplace id_bytes_to_dt) = inr marketplace_list →
     Forall (λ c, ∃ x, o c = Returned x)
       (trace o (get_dt_marketplace id_bytes_to_dt))).
Proof.
  assert (Hpass : ∀ R (p : prog R),
            raises_only (λ _, False) p → outcome o p = inl e → passed_on o p e).
  { intros R p Hp He.
    destruct (raises_only_outcome _ p o e Hp He) as [[]|Hpassed].
    exact Hpassed. }
  repeat split; intros; try (apply Hpass; try assumption).
  - apply check_service_terms_raises.
  - apply publish_dt_raises.
  - apply grant_dt_perm_raises.
  - apply activate_cdt_raises.
  - by eapply returned_answered.
  - by eapply returned_answered.
Qed.

(** X4: the only exceptions [get_dt_details] raises itself are the
    [IndexError] of an empty enterprise record, the [KeyError] of metadata
    without ['main'] and the [KeyError] of a service without a price; the
    only exception [get_dt_marketplace] raises itself is the [KeyError] of
    metadata without ['main'].  Any other exception they end with is the
    failure of the collaborator they called last. *)
Theorem get_dt_details_exceptions (id_bytes_to_dt : TokenId → DT) (o : oracle)
    (e : exn) :
  (∀ dt, outcome o (get_dt_details dt) = inl e →
         e = IndexError ∨ e = KeyError "main" ∨ e = KeyError "price" ∨
         passed_on o (get_dt_details dt) e) ∧
  (outcome o (get_dt_marketplace id_bytes_to_dt) = inl e →
   e = KeyError "main" ∨ passed_on o (get_dt_marketplace id_bytes_to_dt) e).
Proof.
  split.
  - intros dt He.
    destruct (raises_only_outcome _ _ o e (get_dt_details_raises dt) He)
      as [[?|[?|?]]|?]; auto.
  - intros He.
    destruct (raises_only_outcome _ _ o e
                (get_dt_marketplace_raises id_bytes_to_dt) He) as [?|?]; auto.
Qed.

(** X5: the only exception [generate_ddo] raises itself is the
    [AssertionError] "Service agreements are not satisfied", and it raises
    it only when called with [verify=True] and [verify_services] answered
    [False] for the assembled document. *)
Theorem generate_ddo_exceptions (checksum_of : DDO.t → Checksum) (o : oracle)
    (metadata : Metadata) (services : list Service.t)
    (owner_address : Address) (child_dts : option (list DT)) (verify : bool)
    (e : exn) :
  outcome o (generate_ddo checksum_of metadata services owner_address
               child_dts verify) = inl e →
  (e = AssertionError service_error ∧ verify = true ∧
   ∃ new_dt,
     o GenerateNewDt = Returned new_dt ∧
     o (VerifyServices
          (assemble checksum_of metadata services owner_address child_dts
             new_dt) None None) = Returned false) ∨
  passed_on o (generate_ddo checksum_of metadata services owner_address
                 child_dts verify) e.
Proof.
  unfold passed_on, outcome, trace. rewrite generate_ddo_run.
  destruct (o GenerateNewDt) as [new_dt|what] eqn:Hdt; cbn.
  - destruct verify; cbn; [|discriminate].
    destruct (o (VerifyServices _ _ _)) as [[|]|what] eqn:Hsat; cbn;
      [discriminate| |].
    + intros [= <-]. left. split; [reflexivity|]. split; [reflexivity|].
      exists new_dt. auto.
    + intros [= <-]. right. eexists _, what. split; [reflexivity|]. auto.
  - intros [= <-]. right. exists GenerateNewDt, what. auto.
Qed.

(** X6: [get_dt_marketplace], [get_dt_details] and [generate_ddo] write
    nothing: none of their calls adds to the store, mints, grants or
    activates, whatever the collaborators answer. *)
Theorem queries_never_write (id_bytes_to_dt : TokenId → DT)
    (checksum_of : DDO.t → Checksum) (o : oracle) :
  Forall (λ c, is_write c = false) (trace o (get_dt_marketplace id_bytes_to_dt)) ∧
  (∀ dt, Forall (λ c, is_write c = false) (trace o (get_dt_details dt))) ∧
  (∀ metadata services owner_address child_dts verify,
     Forall (λ c, is_write c = false)
       (trace o (generate_ddo checksum_of metadata services owner_address
                   child_dts verify))).
Proof.
  repeat split; intros.
  - apply only_trace, get_dt_marketplace_only.
  - apply only_trace, get_dt_details_only.
  - apply only_trace, generate_ddo_only.
Qed.


(** ** More on the marketplace *)

Lemma zip4_length {A B C D} (a : list A) (b : list B) (c : list C)
    (d : list D) :
  length (zip4 a b c d)
  = (((length a `min` length b) `min` length c) `min` length d)%nat.
Proof.
  revert b c d. induction a as [|x a IH]; intros [|y b] [|z c] [|w d];
    cbn; try lia.
  rewrite IH. lia.
Qed.

Lemma zip4_sublists {A B C D} (a : list A) (b : list B) (c : list C)
    (d : list D) :
  (zip4 a b c d).*1.*1.*1 `sublist_of` a ∧
  (zip4 a b c d).*1.*1.*2 `sublist_of` b.
Proof.
  revert b c d. induction a as [|x a IH]; intros [|y b] [|z c] [|w d];
    cbn; try (split; apply sublist_nil_l).
  destruct (IH b c d) as [Ha Hb]. split; by apply sublist_skip.
Qed.

Lemma omap_length_le {A B} (f : A → option B) (l : list A) :
  (length (omap f l) ≤ length l)%nat.
Proof.
  induction l as [|x l IH]; cbn; [lia|]. destruct (f x); cbn; lia.
Qed.

Lemma listed_row (id_bytes_to_dt : TokenId → DT) (o : oracle)
    (row : TokenId * string * IpfsPath * Checksum) (entry : Entry.t) :
  listed id_bytes_to_dt o row = Some entry →
  Entry.dt entry = id_bytes_to_dt row.1.1.1 ∧ Entry.issuer entry = row.1.1.2.
Proof.
  destruct row as [[[dt issuer_name] ipfs_path] checksum]. unfold listed.
  destruct (o (ResolveAssetByUrl ipfs_path)) as [[ddo|]|what]; try discriminate.
  destruct (DDO.metadata ddo !! "main") as [main|]; try discriminate.
  destruct (py_ne_str _ _); try discriminate.
  destruct (passes _ _); try discriminate.
  intros [= <-]. done.
Qed.

Lemma listed_sublists (id_bytes_to_dt : TokenId → DT) (o : oracle)
    (rows : list (TokenId * string * IpfsPath * Checksum)) :
  Entry.dt <$> omap (listed id_bytes_to_dt o) rows
    `sublist_of` id_bytes_to_dt <$> rows.*1.*1.*1 ∧
  Entry.issuer <$> omap (listed id_bytes_to_dt o) rows
    `sublist_of` rows.*1.*1.*2.
Proof.
  induction rows as [|row rows [IHd IHi]]; cbn; [done|].
  destruct (listed id_bytes_to_dt o row) as [entry|] eqn:Hrow; cbn.
  - destruct (listed_row _ _ _ _ Hrow) as [-> ->].
    split; by apply sublist_skip.
  - split; by apply sublist_cons.
Qed.

Lemma row_calls_resolutions (o : oracle)
    (rows : list (TokenId * string * IpfsPath * Checksum)) :
  List.filter is_resolution (concat (row_calls o <$> rows))
  = ResolveAssetByUrl <$> rows.*1.*2.
Proof.
  induction rows as [|[[[dt issuer_name] ipfs_path] checksum] rows IH];
    [reflexivity|].
  cbn -[String.eqb]. rewrite List.filter_app, IH. f_equal.
  destruct (o (ResolveAssetByUrl ipfs_path)) as [[ddo|]|what]; cbn -[String.eqb];
    try reflexivity.
  destruct (DDO.metadata ddo !! "main") as [main|]; [|reflexivity].
  destruct (py_ne_str _ _); reflexivity.
Qed.

Lemma row_calls_integrity (o : oracle)
    (rows : list (TokenId * string * IpfsPath * Checksum))
    (ddo : DDO.t) (checksum : Checksum) :
  VerifyDdoIntegrity ddo checksum ∈ concat (row_calls o <$> rows) →
  ∃ dt issuer_name ipfs_path main,
    (dt, issuer_name, ipfs_path, checksum) ∈ rows ∧
    o (ResolveAssetByUrl ipfs_path) = Returned (Some ddo) ∧
    DDO.metadata ddo !! "main" = Some main ∧
    py_ne_str (py_get main "type") "Algorithm" = true.
Proof.
  induction rows as [|[[[dt issuer_name] ipfs_path] cs] rows IH].
  - cbn. intros Hin. by apply elem_of_nil in Hin.
  - cbn -[String.eqb]. rewrite elem_of_cons, elem_of_app.
    intros [Heq|[Hrow|Hrest]]; [discriminate| |].
    + destruct (o (ResolveAssetByUrl ipfs_path)) as [[d|]|what] eqn:Hd;
        try (by apply elem_of_nil in Hrow).
      destruct (DDO.metadata d !! "main") as [main|] eqn:Hmain;
        [|by apply elem_of_nil in Hrow].
      destruct (py_ne_str (py_get main "type") "Algorithm") eqn:Hty;
        [|by apply elem_of_nil in Hrow].
      apply list_elem_of_singleton in Hrow. injection Hrow as -> ->.
      exists dt, issuer_name, ipfs_path, main.
      split; [apply list_elem_of_here|auto].
    + destruct (IH Hrest) as (dt' & name' & path' & main & Hin & Hrest').
      exists dt', name', path', main.
      split; [by apply list_elem_of_further|exact Hrest'].
Qed.

Lemma answering_rows_smooth (o : oracle)
    (rows : list (TokenId * string * IpfsPath * Checksum)) :
  (∀ url, ∃ d, o (ResolveAssetByUrl url) = Returned d) →
  (∀ ddo checksum, ∃ b, o (VerifyDdoIntegrity ddo checksum) = Returned b) →
  sectioned o →
  Forall (smooth o) rows.
Proof.
  intros Hres Hint Hmain. apply Forall_forall. intros row _.
  by apply answering_smooth.
Qed.

(** X8: when the ledger, the store and the verifier answer and every
    document the store resolves has the dictionary ['main'],
    [get_dt_marketplace] asks the ledger for the tokens and the asset
    provider for the names of their issuers, then goes through the rows in
    order, resolving the document of each row once.  It verifies the
    integrity of a document only when the document resolved from a row and
    is not of type [Algorithm], and then against the checksum of that
    row. *)
Theorem get_dt_marketplace_calls (id_bytes_to_dt : TokenId → DT) (o : oracle)
    (dt_idx : list TokenId) (issuers : list Address)
    (checksums : list Checksum) (ipfs_paths : list IpfsPath)
    (issuer_names : list string) :
  o GetAvailableDts = Returned (dt_idx, issuers, checksums, ipfs_paths) →
  o (GetIssuerNames issuers) = Returned issuer_names →
  (∀ url, ∃ d, o (ResolveAssetByUrl url) = Returned d) →
  (∀ ddo checksum, ∃ b, o (VerifyDdoIntegrity ddo checksum) = Returned b) →
  sectioned o →
  let rows := zip4 dt_idx issuer_names ipfs_paths checksums in
  trace o (get_dt_marketplace id_bytes_to_dt)
  = [GetAvailableDts; GetIssuerNames issuers] ++ concat (row_calls o <$> rows) ∧
  List.filter is_resolution (trace o (get_dt_marketplace id_bytes_to_dt))
  = ResolveAssetByUrl <$> rows.*1.*2 ∧
  (∀ ddo checksum,
     VerifyDdoIntegrity ddo checksum ∈ trace o (get_dt_marketplace id_bytes_to_dt) →
     ∃ dt issuer_name ipfs_path main,
       (dt, issuer_name, ipfs_path, checksum) ∈ rows ∧
       o (ResolveAssetByUrl ipfs_path) = Returned (Some ddo) ∧
       DDO.metadata ddo !! "main" = Some main ∧
       py_ne_str (py_get main "type") "Algorithm" = true).
Proof.
  intros Havail Hnames Hres Hint Hmain rows. unfold trace.
  rewrite (get_dt_marketplace_run id_bytes_to_dt o dt_idx issuers checksums
             ipfs_paths issuer_names Havail Hnames
             (answering_rows_smooth o _ Hres Hint Hmain)).
  fold rows. cbn [fst]. split; [reflexivity|]. split.
  - cbn [app List.filter is_resolution]. apply row_calls_resolutions.
  - intros ddo checksum Hin. apply (row_calls_integrity o rows).
    cbn in Hin. rewrite !elem_of_cons in Hin.
    destruct Hin as [?|[?|?]]; [discriminate|discriminate|assumption].
Qed.

(** X9: the marketplace stops with the shortest of the four lists it zips:
    it resolves as many documents as the shortest of the lists of
    identifiers, issuer names, paths and checksums has elements, and
    returns at most that many entries.  A token for which the asset
    provider returned no name is neither resolved nor listed.  The
    collaborators are taken to answer, and the documents to have the
    dictionary ['main']. *)
Theorem get_dt_marketplace_shortest_list (id_bytes_to_dt : TokenId → DT)
    (o : oracle) (dt_idx : list TokenId) (issuers : list Address)
    (checksums : list Checksum) (ipfs_paths : list IpfsPath)
    (issuer_names : list string) :
  o GetAvailableDts = Returned (dt_idx, issuers, checksums, ipfs_paths) →
  o (GetIssuerNames issuers) = Returned issuer_names →
  (∀ url, ∃ d, o (ResolveAssetByUrl url) = Returned d) →
  (∀ ddo checksum, ∃ b, o (VerifyDdoIntegrity ddo checksum) = Returned b) →
  sectioned o →
  let shortest :=
    (((length dt_idx `min` length issuer_names) `min` length ipfs_paths)
       `min` length checksums)%nat in
  List.filter is_resolution (trace o (get_dt_marketplace id_bytes_to_dt))
  = ResolveAssetByUrl <$> take shortest ipfs_paths ∧
  ∃ entries,
    outcome o (get_dt_marketplace id_bytes_to_dt) = inr entries ∧
    (length entries ≤ shortest)%nat ∧
    Entry.dt <$> entries `sublist_of` id_bytes_to_dt <$> take shortest dt_idx.
Proof.
  intros Havail Hnames Hres Hint Hmain shortest. unfold trace, outcome.
  rewrite (get_dt_marketplace_run id_bytes_to_dt o dt_idx issuers checksums
             ipfs_paths issuer_names Havail Hnames
             (answering_rows_smooth o _ Hres Hint Hmain)).
  cbn [fst snd].
  assert (Hzip : ∀ (a : list TokenId) (b : list string) (c : list IpfsPath)
                   (d : list Checksum),
            (zip4 a b c d).*1.*2 = take (length (zip4 a b c d)) c ∧
            (zip4 a b c d).*1.*1.*1 = take (length (zip4 a b c d)) a).
  { induction a as [|x a IH]; intros [|y b] [|z c] [|w d]; cbn;
      try (split; reflexivity).
    destruct (IH b c d) as [<- <-]. done. }
  pose proof (Hzip dt_idx issuer_names ipfs_paths checksums) as Htake.
  rewrite zip4_length in Htake. fold shortest in Htake.
  destruct Htake as [Hpaths Hids].
  split.
  - cbn [app List.filter is_resolution].
    by rewrite row_calls_resolutions, Hpaths.
  - eexists. split; [reflexivity|]. split.
    + etransitivity; [apply omap_length_le|]. by rewrite zip4_length.
    + rewrite <- Hids. apply (listed_sublists id_bytes_to_dt o).
Qed.

(** X10: the marketplace keeps the order of the ledger and invents
    nothing: the identifiers of the entries it returns are, in order, among
    the converted identifiers of the ledger, and their issuers, in order,
    among the names the asset provider returned.  The collaborators are
    taken to answer, and the documents to have the dictionary ['main']. *)
Theorem get_dt_marketplace_order (id_bytes_to_dt : TokenId → DT) (o : oracle)
    (dt_idx : list TokenId) (issuers : list Address)
    (checksums : list Checksum) (ipfs_paths : list IpfsPath)
    (issuer_names : list string) :
  o GetAvailableDts = Returned (dt_idx, issuers, checksums, ipfs_paths) →
  o (GetIssuerNames issuers) = Returned issuer_names →
  (∀ url, ∃ d, o (ResolveAssetByUrl url) = Returned d) →
  (∀ ddo checksum, ∃ b, o (VerifyDdoIntegrity ddo checksum) = Returned b) →
  sectioned o →
  ∃ entries,
    outcome o (get_dt_marketplace id_bytes_to_dt) = inr entries ∧
    Entry.dt <$> entries `sublist_of` id_bytes_to_dt <$> dt_idx ∧
    Entry.issuer <$> entries `sublist_of` issuer_names.
Proof.
  intros Havail Hnames Hres Hint Hmain. unfold outcome.
  rewrite (get_dt_marketplace_run id_bytes_to_dt o dt_idx issuers checksums
             ipfs_paths issuer_names Havail Hnames
             (answering_rows_smooth o _ Hres Hint Hmain)).
  eexists. split; [reflexivity|].
  destruct (listed_sublists id_bytes_to_dt o
              (zip4 dt_idx issuer_names ipfs_paths checksums)) as [Hd Hi].
  destruct (zip4_sublists dt_idx issuer_names ipfs_paths checksums)
    as [Hzd Hzi].
  split.
  - etransitivity; [exact Hd|]. by apply fmap_sublist.
  - etransitivity; [exact Hi|exact Hzi].
Qed.

(** The run of [get_dt_marketplace] when the rows before one row go
    smoothly: the calls for those rows, then the run of the loop from that
    row on. *)
Lemma get_dt_marketplace_from (id_bytes_to_dt : TokenId → DT) (o : oracle)
    (dt_idx : list TokenId) (issuers : list Address)
    (checksums : list Checksum) (ipfs_paths : list IpfsPath)
    (issuer_names : list string)
    (before rest : list (TokenId * string * IpfsPath * Checksum)) :
  o GetAvailableDts = Returned (dt_idx, issuers, checksums, ipfs_paths) →
  o (GetIssuerNames issuers) = Returned issuer_names →
  zip4 dt_idx issuer_names ipfs_paths checksums = before ++ rest →
  Forall (smooth o) before →
  run o (get_dt_marketplace id_bytes_to_dt)
  = ([GetAvailableDts; GetIssuerNames issuers] ++
     concat (row_calls o <$> before) ++
     (run o (marketplace_loop id_bytes_to_dt rest
               (omap (listed id_bytes_to_dt o) before))).1,
     (run o (marketplace_loop id_bytes_to_dt rest
               (omap (listed id_bytes_to_dt o) before))).2).
Proof.
  intros Havail Hnames Hrows Hbefore.
  unfold get_dt_marketplace. cbn. rewrite Havail. cbn. rewrite Hnames, Hrows.
  rewrite (marketplace_loop_app id_bytes_to_dt o before rest [] Hbefore).
  reflexivity.
Qed.

(** X11: a failure of the store is not skipped.  When the resolution of one
    document fails, the rows before it having gone smoothly,
    [get_dt_marketplace] stops there, ends with that failure and returns no
    list, not even the entries gathered so far. *)
Theorem get_dt_marketplace_store_failure (id_bytes_to_dt : TokenId → DT)
    (o : oracle) (dt_idx : list TokenId) (issuers : list Address)
    (checksums : list Checksum) (ipfs_paths : list IpfsPath)
    (issuer_names : list string)
    (before after : list (TokenId * string * IpfsPath * Checksum))
    (row : TokenId * string * IpfsPath * Checksum) (what : string) :
  o GetAvailableDts = Returned (dt_idx, issuers, checksums, ipfs_paths) →
  o (GetIssuerNames issuers) = Returned issuer_names →
  zip4 dt_idx issuer_names ipfs_paths checksums = before ++ row :: after →
  Forall (smooth o) before →
  o (ResolveAssetByUrl row.1.2) = Failed what →
  run o (get_dt_marketplace id_bytes_to_dt)
  = ([GetAvailableDts; GetIssuerNames issuers] ++
     concat (row_calls o <$> before) ++ [ResolveAssetByUrl row.1.2],
     inl (CollaboratorError what)).
Proof.
  intros Havail Hnames Hrows Hbefore Hrow.
  rewrite (get_dt_marketplace_from id_bytes_to_dt o dt_idx issuers checksums
             ipfs_paths issuer_names before (row :: after)
             Havail Hnames Hrows Hbefore).
  destruct row as [[[dt issuer_name] ipfs_path] checksum]. cbn in *.
  rewrite Hrow. reflexivity.
Qed.

(** X19: metadata without ['main'] are not skipped either.  When a document
    resolves whose metadata lack the dictionary ['main'], the rows before
    it having gone smoothly, [get_dt_marketplace] stops right after that
    resolution with [KeyError('main')]: the integrity of the document is
    not verified, the rows after it are not looked at, and no list is
    returned. *)
Theorem get_dt_marketplace_missing_main (id_bytes_to_dt : TokenId → DT)
    (o : oracle) (dt_idx : list TokenId) (issuers : list Address)
    (checksums : list Checksum) (ipfs_paths : list IpfsPath)
    (issuer_names : list string)
    (before after : list (TokenId * string * IpfsPath * Checksum))
    (row : TokenId * string * IpfsPath * Checksum) (ddo : DDO.t) :
  o GetAvailableDts = Returned (dt_idx, issuers, checksums, ipfs_paths) →
  o (GetIssuerNames issuers) = Returned issuer_names →
  zip4 dt_idx issuer_names ipfs_paths checksums = before ++ row :: after →
  Forall (smooth o) before →
  o (ResolveAssetByUrl row.1.2) = Returned (Some ddo) →
  DDO.metadata ddo !! "main" = None →
  run o (get_dt_marketplace id_bytes_to_dt)
  = ([GetAvailableDts; GetIssuerNames issuers] ++
     concat (row_calls o <$> before) ++ [ResolveAssetByUrl row.1.2],
     inl (KeyError "main")).
Proof.
  intros Havail Hnames Hrows Hbefore Hrow Hmain.
  rewrite (get_dt_marketplace_from id_bytes_to_dt o dt_idx issuers checksums
             ipfs_paths issuer_names before (row :: after)
             Havail Hnames Hrows Hbefore).
  destruct row as [[[dt issuer_name] ipfs_path] checksum]. cbn in *.
  rewrite Hrow. cbn. unfold py_item. rewrite Hmain. reflexivity.
Qed.

(** ** More on the details of a token *)

Lemma lineage_run (o : oracle) (ddo : DDO.t) :
  outcome o
    (if DDO.is_cdt ddo then
       union_paths ← perform (TraceDataUnion ddo [DDO.dt ddo]);
       tree ← perform (TreeFormat union_paths);
       perform (TreeToJson tree)
     else Ret VNone)
  = match lineage o ddo with
    | Returned union_data => inr union_data
    | Failed what => inl (CollaboratorError what)
    end.
Proof.
  unfold lineage, outcome. destruct (DDO.is_cdt ddo); cbn; [|reflexivity].
  destruct (o (TraceDataUnion _ _)) as [union_paths|what]; cbn; [|reflexivity].
  destruct (o (TreeFormat _)) as [tree|what]; cbn; [|reflexivity].
  destruct (o (TreeToJson _)) as [json|what]; reflexivity.
Qed.

Lemma get_dt_details_outcome (o : oracle) (dt : DT) (data : TokenData)
    (ddo : DDO.t) (issuer_name : pyval) (rest : list pyval) :
  o (ResolveAsset dt) = Returned (Some data, Some ddo) →
  o (VerifyDdoIntegrity ddo (data_checksum data)) = Returned true →
  o (GetEnterprise (data_issuer data)) = Returned (issuer_name :: rest) →
  outcome o (get_dt_details dt)
  = match DDO.metadata ddo !! "main" with
    | None => inl (KeyError "main")
    | Some main =>
        match lineage o ddo with
        | Failed what => inl (CollaboratorError what)
        | Returned union_data =>
            match mapM service_info (DDO.services ddo) with
            | Some infos =>
                inr (Some (info_of data main issuer_name, infos, union_data))
            | None => inl (KeyError "price")
            end
        end
    end.
Proof.
  intros Hres Hint Hent. unfold get_dt_details.
  rewrite (outcome_perform_mbind o (ResolveAsset dt)), Hres. cbn beta iota.
  rewrite (outcome_perform_mbind o
             (VerifyDdoIntegrity ddo (data_checksum data))), Hint.
  cbn [negb]. cbn beta iota.
  rewrite (outcome_perform_mbind o (GetEnterprise (data_issuer data))), Hent.
  rewrite outcome_mbind. cbn [py_item0].
  change (outcome o (Ret issuer_name)) with (@inr exn pyval issuer_name).
  cbn beta iota. rewrite outcome_item.
  destruct (DDO.metadata ddo !! "main") as [main|] eqn:Hmain; [|reflexivity].
  cbn beta. repeat (rewrite outcome_item, Hmain; cbn beta).
  rewrite outcome_mbind, lineage_run.
  destruct (lineage o ddo) as [union_data|what]; [|reflexivity].
  rewrite outcome_mbind. unfold outcome at 1. rewrite service_loop_run.
  cbn [snd]. destruct (mapM service_info (DDO.services ddo)); reflexivity.
Qed.

(** X12: for a token whose record and document resolve, whose document
    matches the recorded checksum, has the dictionary ['main'] in its
    metadata and has a price for each of its services, [get_dt_details]
    returns the token's information, read in ['main'], with the owner
    taken from the ledger's record and the issuer named by the asset
    provider, one service description per service of the document, in the
    document's order and with its index, descriptor and price, and the
    lineage, which is [None] for a leaf document. *)
Theorem get_dt_details_shows (o : oracle) (dt : DT) (data : TokenData)
    (ddo : DDO.t) (issuer_name : pyval) (rest : list pyval)
    (main : gmap string pyval) (union_data : pyval) :
  o (ResolveAsset dt) = Returned (Some data, Some ddo) →
  o (VerifyDdoIntegrity ddo (data_checksum data)) = Returned true →
  o (GetEnterprise (data_issuer data)) = Returned (issuer_name :: rest) →
  DDO.metadata ddo !! "main" = Some main →
  lineage o ddo = Returned union_data →
  Forall (λ service, is_Some (Service.attributes service !! "price"))
    (DDO.services ddo) →
  ∃ service_lists,
    outcome o (get_dt_details dt)
    = inr (Some (info_of data main issuer_name, service_lists, union_data)) ∧
    ServiceInfo.sid <$> service_lists = Service.index <$> DDO.services ddo ∧
    ServiceInfo.constrains <$> service_lists
    = Service.descriptor <$> DDO.services ddo ∧
    Forall2 (λ service info,
               Service.attributes service !! "price"
               = Some (ServiceInfo.price info))
      (DDO.services ddo) service_lists ∧
    (DDO.is_cdt ddo = false → union_data = VNone).
Proof.
  intros Hres Hint Hent Hmain Hlin Hpriced.
  assert (Hsome : is_Some (mapM service_info (DDO.services ddo))).
  { apply mapM_is_Some. eapply Forall_impl; [exact Hpriced|].
    intros service [price Hprice]. cbn.
    rewrite (service_info_priced _ _ Hprice). eauto. }
  destruct Hsome as [infos Hinfos]. exists infos.
  rewrite (get_dt_details_outcome o dt data ddo issuer_name rest
             Hres Hint Hent), Hmain, Hlin, Hinfos.
  destruct (service_info_sid _ _ Hinfos) as [Hsid Hcon].
  split; [reflexivity|]. split; [exact Hsid|]. split; [exact Hcon|]. split.
  - apply mapM_Some in Hinfos. eapply Forall2_impl; [exact Hinfos|].
    intros service info. cbn. unfold service_info.
    destruct (Service.attributes service !! "price"); cbn; [|discriminate].
    intros [= <-]. reflexivity.
  - intros Hleaf. unfold lineage in Hlin. rewrite Hleaf in Hlin.
    by injection Hlin as <-.
Qed.

(** X13: one service without a price makes [get_dt_details] fail as a
    whole, with [KeyError('price')], for a token that resolves, is intact
    and has the dictionary ['main'] in its metadata. *)
Theorem get_dt_details_missing_price (o : oracle) (dt : DT) (data : TokenData)
    (ddo : DDO.t) (issuer_name : pyval) (rest : list pyval)
    (main : gmap string pyval) (union_data : pyval) (service : Service.t) :
  o (ResolveAsset dt) = Returned (Some data, Some ddo) →
  o (VerifyDdoIntegrity ddo (data_checksum data)) = Returned true →
  o (GetEnterprise (data_issuer data)) = Returned (issuer_name :: rest) →
  DDO.metadata ddo !! "main" = Some main →
  lineage o ddo = Returned union_data →
  service ∈ DDO.services ddo →
  Service.attributes service !! "price" = None →
  outcome o (get_dt_details dt) = inl (KeyError "price").
Proof.
  intros Hres Hint Hent Hmain Hlin Hin Hprice.
  rewrite (get_dt_details_outcome o dt data ddo issuer_name rest
             Hres Hint Hent), Hmain, Hlin.
  by rewrite (service_info_missing _ _ Hin Hprice).
Qed.

(** X20: for a token that resolves and is intact but whose metadata lack
    the dictionary ['main'], [get_dt_details] fails with
    [KeyError('main')] once the issuer is named: its calls are the
    resolution, the integrity check and the lookup of the enterprise, and
    neither the tracer nor the services are reached. *)
Theorem get_dt_details_missing_main (o : oracle) (dt : DT) (data : TokenData)
    (ddo : DDO.t) (issuer_name : pyval) (rest : list pyval) :
  o (ResolveAsset dt) = Returned (Some data, Some ddo) →
  o (VerifyDdoIntegrity ddo (data_checksum data)) = Returned true →
  o (GetEnterprise (data_issuer data)) = Returned (issuer_name :: rest) →
  DDO.metadata ddo !! "main" = None →
  run o (get_dt_details dt)
  = ([ResolveAsset dt; VerifyDdoIntegrity ddo (data_checksum data);
      GetEnterprise (data_issuer data)], inl (KeyError "main")).
Proof.
  intros Hres Hint Hent Hmain. unfold get_dt_details.
  answered Hres. answered Hint. answered Hent.
  unfold py_item. rewrite Hmain. reflexivity.
Qed.

(** X14: when the asset provider returns an empty record for the issuer,
    [get_dt_details] fails with [IndexError], after the integrity check and
    before the tracer or the services are looked at. *)
Theorem get_dt_details_no_enterprise (o : oracle) (dt : DT) (data : TokenData)
    (ddo : DDO.t) :
  o (ResolveAsset dt) = Returned (Some data, Some ddo) →
  o (VerifyDdoIntegrity ddo (data_checksum data)) = Returned true →
  o (GetEnterprise (data_issuer data)) = Returned [] →
  run o (get_dt_details dt)
  = ([ResolveAsset dt; VerifyDdoIntegrity ddo (data_checksum data);
      GetEnterprise (data_issuer data)], inl IndexError).
Proof.
  intros Hres Hint Hent. unfold get_dt_details.
  answered Hres. answered Hint. answered Hent. reflexivity.
Qed.

Lemma elem_of_trace_vis {R} (o : oracle) (c c' : call)
    (k : ret_ty c' → prog R) :
  c ∈ trace o (Vis c' k) →
  c = c' ∨ ∃ x, o c' = Returned x ∧ c ∈ trace o (k x).
Proof.
  unfold trace. cbn. destruct (o c') as [x|what].
  - destruct (run o (k x)) as [t r] eqn:Hrun. cbn.
    intros [->|Hin]%elem_of_cons; [by left|right].
    exists x. rewrite Hrun. auto.
  - cbn. intros ->%list_elem_of_singleton. by left.
Qed.

(** X15: [get_dt_details] asks the tracer only about a composite document
    that resolved and matched the recorded checksum: for a leaf token, a
    token that does not resolve or a document that was altered, the tracer
    is not called. *)
Theorem get_dt_details_tracer_for_composite (o : oracle) (dt : DT) (c : call) :
  c ∈ trace o (get_dt_details dt) →
  is_tracer_call c = true →
  ∃ data ddo,
    o (ResolveAsset dt) = Returned (Some data, Some ddo) ∧
    o (VerifyDdoIntegrity ddo (data_checksum data)) = Returned true ∧
    DDO.is_cdt ddo = true.
Proof.
  intros Hin Hc. unfold get_dt_details in Hin. cbn in Hin.
  apply elem_of_trace_vis in Hin as [->|([data ddo] & Hres & Hin)];
    [discriminate|].
  destruct data as [data|], ddo as [ddo|];
    try (by apply elem_of_nil in Hin).
  cbn in Hin.
  apply elem_of_trace_vis in Hin as [->|(intact & Hint & Hin)];
    [discriminate|].
  destruct intact; [|by apply elem_of_nil in Hin].
  destruct (DDO.is_cdt ddo) eqn:Hcdt; [eauto 6|]. exfalso.
  cbn in Hin.
  apply elem_of_trace_vis in Hin as [->|(enterprise & Hent & Hin)];
    [discriminate|].
  match type of Hin with
  | _ ∈ trace o ?p =>
      assert (Hquiet : only (λ c, is_tracer_call c = false) p)
  end.
  { walk; apply service_loop_only. }
  apply (only_trace _ _ o) in Hquiet. rewrite Forall_forall in Hquiet.
  specialize (Hquiet c Hin). congruence.
Qed.

(** ** More on building and publishing *)

(** X16: a document [generate_ddo] returns when called with [verify=True]
    has been accepted by [verify_services], asked about the whole document
    with the identifier and the proof in place. *)
Theorem generate_ddo_returns_accepted (checksum_of : DDO.t → Checksum)
    (o : oracle) (metadata : Metadata) (services : list Service.t)
    (owner_address : Address) (child_dts : option (list DT)) (ddo : DDO.t) :
  outcome o (generate_ddo checksum_of metadata services owner_address
               child_dts true) = inr ddo →
  o (VerifyServices ddo None None) = Returned true ∧
  ∃ new_dt,
    o GenerateNewDt = Returned new_dt ∧
    ddo = assemble checksum_of metadata services owner_address child_dts
            new_dt ∧
    DDO.dt ddo = new_dt.
Proof.
  unfold outcome. rewrite generate_ddo_run.
  destruct (o GenerateNewDt) as [new_dt|what]; cbn; [|discriminate].
  destruct (o (VerifyServices _ _ _)) as [[|]|what] eqn:Hsat; cbn;
    try discriminate.
  intros [= <-]. split; [exact Hsat|]. exists new_dt. auto.
Qed.

(** X17: publishing a document that [generate_ddo] returned mints the token
    under the identifier drawn for it, for the owner given to
    [generate_ddo], as a leaf exactly when no child was given ([None] or an
    empty list), with the checksum computed over the document before its
    proof was attached, and at the path the store returned. *)
Theorem generate_ddo_then_publish_dt (dt_to_id : DT → TokenId)
    (checksum_of : DDO.t → Checksum) (o : oracle) (metadata : Metadata)
    (services : list Service.t) (owner_address : Address)
    (child_dts : option (list DT)) (verify : bool) (issuer_wallet : Wallet)
    (ddo : DDO.t) (ipfs_path : IpfsPath) :
  outcome o (generate_ddo checksum_of metadata services owner_address
               child_dts verify) = inr ddo →
  o (IpfsAdd ddo) = Returned ipfs_path →
  ∃ isLeaf,
    trace o (ddo ← generate_ddo checksum_of metadata services owner_address
                     child_dts verify;
             publish_dt dt_to_id ddo issuer_wallet)
    = trace o (generate_ddo checksum_of metadata services owner_address
                 child_dts verify) ++
      [IpfsAdd ddo;
       MintDt (dt_to_id (DDO.dt ddo)) owner_address isLeaf
         (checksum_of
            (DDO.mk (DDO.dt ddo) owner_address metadata services
               (default [] child_dts) {| proof_checksum := "" |}))
         ipfs_path issuer_wallet] ∧
    (isLeaf = true ↔ child_dts = None ∨ child_dts = Some []) ∧
    o GenerateNewDt = Returned (DDO.dt ddo).
Proof.
  intros Hgen Hadd.
  exists (negb (py_bool (default [] child_dts))).
  rewrite trace_mbind, Hgen. split; [|split].
  - f_equal. unfold trace. rewrite publish_dt_run, Hadd.
    unfold outcome in Hgen. rewrite generate_ddo_run in Hgen.
    destruct (o GenerateNewDt) as [new_dt|what]; cbn in Hgen; [|discriminate].
    assert (Hddo : ddo = assemble checksum_of metadata services owner_address
                           child_dts new_dt).
    { destruct verify; cbn in Hgen; [|congruence].
      destruct (o (VerifyServices _ _ _)) as [[|]|what]; cbn in Hgen;
        congruence. }
    rewrite assemble_fields in Hddo. subst ddo. cbn.
    destruct (o (MintDt _ _ _ _ _ _)) as [minted|what]; reflexivity.
  - destruct child_dts as [[|child children]|]; cbn.
    + split; [by right|done].
    + split; [done|intros [?|?]; discriminate].
    + split; [by left|done].
  - unfold outcome in Hgen. rewrite generate_ddo_run in Hgen.
    destruct (o GenerateNewDt) as [new_dt|what]; cbn in Hgen; [|discriminate].
    destruct verify; cbn in Hgen.
    + destruct (o (VerifyServices _ _ _)) as [[|]|what]; cbn in Hgen;
        try discriminate.
      by injection Hgen as <-.
    + by injection Hgen as <-.
Qed.

(** X18: [grant_dt_perm] and [activate_cdt] check nothing themselves: each
    makes one call, to the ledger, with the identifiers converted, the
    children of a composite in the order given and as many as given, be
    the list empty; what the ledger answers is the outcome. *)
Theorem ledger_calls_are_unchecked (dt_to_id : DT → TokenId) (o : oracle)
    (dt grantee cdt : DT) (child_dts : list DT) (wallet : Wallet) :
  trace o (grant_dt_perm dt_to_id dt grantee wallet)
  = [GrantDt (dt_to_id dt) (dt_to_id grantee) wallet] ∧
  (∃ ids,
     trace o (activate_cdt dt_to_id cdt child_dts wallet)
     = [StartComposeDt (dt_to_id cdt) ids wallet] ∧
     length ids = length child_dts ∧
     ∀ i child, child_dts !! i = Some child → ids !! i = Some (dt_to_id child)) ∧
  (outcome o (grant_dt_perm dt_to_id dt grantee wallet) = inr () ↔
   o (GrantDt (dt_to_id dt) (dt_to_id grantee) wallet) = Returned ()) ∧
  (outcome o (activate_cdt dt_to_id cdt child_dts wallet) = inr () ↔
   o (StartComposeDt (dt_to_id cdt) (dt_to_id <$> child_dts) wallet)
   = Returned ()).
Proof.
  unfold trace, outcome, grant_dt_perm, activate_cdt. cbn.
  split; [|split; [|split]].
  - destruct (o (GrantDt _ _ _)) as [[]|what]; reflexivity.
  - exists (dt_to_id <$> child_dts). split; [|split].
    + destruct (o (StartComposeDt _ _ _)) as [[]|what]; reflexivity.
    + apply length_fmap.
    + intros i child Hi. by rewrite list_lookup_fmap, Hi.
  - destruct (o (GrantDt _ _ _)) as [[]|what]; cbn; split; done.
  - destruct (o (StartComposeDt _ _ _)) as [[]|what]; cbn; split; done.
Qed.

(** ** These properties on the scenario of the tests *)

(** Whether the datasets are granted to the union or not does not matter to
    a request for the first dataset by the algorithm. *)
Lemma check_service_terms_other_grants_ignored_witness :
  (∀ c, (is_grant_lookup c = true → c = CheckDtPerm dt1 dt4) →
        answers granted c = answers ungranted c) ∧
  run (answers granted)
    (check_service_terms dt4 dt1 org1 (sign org3 (org3 +:+ dt4)))
  = run (answers ungranted)
      (check_service_terms dt4 dt1 org1 (sign org3 (org3 +:+ dt4))).
Proof.
  assert (Hsame : ∀ c, (is_grant_lookup c = true → c = CheckDtPerm dt1 dt4) →
                       answers granted c = answers ungranted c).
  { intros c Hc. destruct c; try reflexivity.
    specialize (Hc eq_refl). injection Hc as -> ->. reflexivity. }
  split; [exact Hsame|].
  apply (check_service_terms_other_grants_ignored (answers granted)
           (answers ungranted) dt4 dt1 org1 (sign org3 (org3 +:+ dt4)) Hsame).
Defined.

(** With the ledger out of reach, a request is neither accepted nor
    refused: the failure is passed on. *)
Lemma asset_service_passes_failures_on_witness :
  outcome (failing "ledger out of reach" is_grant_lookup (answers published))
    (check_service_terms dt3 dt1 org1 "corrupted")
  = inl (CollaboratorError "ledger out of reach") ∧
  passed_on (failing "ledger out of reach" is_grant_lookup (answers published))
    (check_service_terms dt3 dt1 org1 "corrupted")
    (CollaboratorError "ledger out of reach").
Proof.
  split; [reflexivity|].
  apply (proj1 (asset_service_passes_failures_on dt_to_id id_bytes_to_dt
                  (failing "ledger out of reach" is_grant_lookup
                     (answers published))
                  (CollaboratorError "ledger out of reach"))).
  reflexivity.
Defined.

Lemma get_dt_details_exceptions_witness :
  outcome (answers unpriced) (get_dt_details dt5) = inl (KeyError "price") ∧
  (KeyError "price" = IndexError ∨ KeyError "price" = KeyError "main" ∨
   KeyError "price" = KeyError "price" ∨
   passed_on (answers unpriced) (get_dt_details dt5) (KeyError "price")).
Proof.
  split; [vm_compute; reflexivity|].
  apply (proj1 (get_dt_details_exceptions id_bytes_to_dt (answers unpriced)
                  (KeyError "price")) dt5).
  vm_compute. reflexivity.
Defined.

Lemma generate_ddo_exceptions_witness :
  outcome (answers published)
    (generate_ddo checksum_of (metadata_of "stray" "Dataset") [stray_service]
       org3 (Some [dt1]) true)
  = inl (AssertionError service_error) ∧
  ((AssertionError service_error = AssertionError service_error ∧
    true = true ∧
    ∃ new_dt,
      answers published GenerateNewDt = Returned new_dt ∧
      answers published
        (VerifyServices
           (assemble checksum_of (metadata_of "stray" "Dataset")
              [stray_service] org3 (Some [dt1]) new_dt) None None)
      = Returned false) ∨
   passed_on (answers published)
     (generate_ddo checksum_of (metadata_of "stray" "Dataset") [stray_service]
        org3 (Some [dt1]) true)
     (AssertionError service_error)).
Proof.
  split; [vm_compute; reflexivity|].
  apply (generate_ddo_exceptions checksum_of (answers published)
           (metadata_of "stray" "Dataset") [stray_service] org3 (Some [dt1])
           true (AssertionError service_error)).
  vm_compute. reflexivity.
Defined.

(** The ledger of the scenario after the grants, as the marketplace reads
    it. *)
Lemma granted_ledger :
  answers granted GetAvailableDts
  = Returned (["1"; "2"; "3"; "4"], [org1; org2; org3; org3],
              [proof_checksum (DDO.proof ddo1); proof_checksum (DDO.proof ddo2);
               proof_checksum (DDO.proof ddo3); proof_checksum (DDO.proof ddo4)],
              ["/ipfs/1"; "/ipfs/2"; "/ipfs/3"; "/ipfs/4"]) ∧
  answers granted (GetIssuerNames [org1; org2; org3; org3])
  = Returned ["org1"; "org2"; "org3"; "org3"] ∧
  (∀ url, ∃ d, answers granted (ResolveAssetByUrl url) = Returned d) ∧
  (∀ ddo checksum,
     ∃ b, answers granted (VerifyDdoIntegrity ddo checksum) = Returned b).
Proof.
  split; [reflexivity|]. split; [reflexivity|].
  split; intros; eexists; reflexivity.
Defined.

Lemma get_dt_marketplace_calls_witness :
  List.filter is_resolution
    (trace (answers granted) (get_dt_marketplace id_bytes_to_dt))
  = ResolveAssetByUrl <$> ["/ipfs/1"; "/ipfs/2"; "/ipfs/3"; "/ipfs/4"].
Proof.
  destruct granted_ledger as (Havail & Hnames & Hres & Hint).
  exact (proj1 (proj2 (get_dt_marketplace_calls id_bytes_to_dt (answers granted)
                         _ _ _ _ _ Havail Hnames Hres Hint
                         granted_sectioned))).
Defined.

(** The asset provider names two issuers only: the marketplace looks at
    the two first tokens of the four. *)
Lemma get_dt_marketplace_shortest_list_witness :
  let o := naming ["org1"; "org2"] (answers granted) in
  o GetAvailableDts
  = Returned (["1"; "2"; "3"; "4"], [org1; org2; org3; org3],
              [proof_checksum (DDO.proof ddo1); proof_checksum (DDO.proof ddo2);
               proof_checksum (DDO.proof ddo3); proof_checksum (DDO.proof ddo4)],
              ["/ipfs/1"; "/ipfs/2"; "/ipfs/3"; "/ipfs/4"]) ∧
  o (GetIssuerNames [org1; org2; org3; org3]) = Returned ["org1"; "org2"] ∧
  List.filter is_resolution (trace o (get_dt_marketplace id_bytes_to_dt))
  = ResolveAssetByUrl <$> ["/ipfs/1"; "/ipfs/2"] ∧
  ∃ entries,
    outcome o (get_dt_marketplace id_bytes_to_dt) = inr entries ∧
    (length entries ≤ 2)%nat ∧
    Entry.dt <$> entries `sublist_of` [dt1; dt2].
Proof.
  intros o. split; [reflexivity|]. split; [reflexivity|].
  apply (get_dt_marketplace_shortest_list id_bytes_to_dt o
           ["1"; "2"; "3"; "4"] [org1; org2; org3; org3]
           [proof_checksum (DDO.proof ddo1); proof_checksum (DDO.proof ddo2);
            proof_checksum (DDO.proof ddo3); proof_checksum (DDO.proof ddo4)]
           ["/ipfs/1"; "/ipfs/2"; "/ipfs/3"; "/ipfs/4"] ["org1"; "org2"]).
  - reflexivity.
  - reflexivity.
  - intros url. eexists. reflexivity.
  - intros ddo checksum. eexists. reflexivity.
  - intros url ddo Hres. exact (granted_sectioned url ddo Hres).
Defined.

Lemma get_dt_marketplace_order_witness :
  ∃ entries,
    outcome (answers granted) (get_dt_marketplace id_bytes_to_dt) = inr entries ∧
    Entry.dt <$> entries `sublist_of` [dt1; dt2; dt3; dt4] ∧
    Entry.issuer <$> entries `sublist_of` ["org1"; "org2"; "org3"; "org3"].
Proof.
  destruct granted_ledger as (Havail & Hnames & Hres & Hint).
  exact (get_dt_marketplace_order id_bytes_to_dt (answers granted)
           _ _ _ _ _ Havail Hnames Hres Hint granted_sectioned).
Defined.

(** The first row of the ledger goes smoothly. *)
Lemma first_row_smooth (o : oracle) :
  o (ResolveAssetByUrl "/ipfs/1") = Returned (Some ddo1) →
  (∀ checksum, ∃ b, o (VerifyDdoIntegrity ddo1 checksum) = Returned b) →
  Forall (smooth o)
    [("1", "org1", "/ipfs/1", proof_checksum (DDO.proof ddo1))].
Proof.
  intros Hres Hint. constructor; [|constructor]. unfold smooth. cbn [fst snd].
  rewrite Hres. split; [|apply Hint]. eexists. reflexivity.
Defined.

(** The store fails on the document of the second dataset: the marketplace
    fails, although the first dataset could be shown. *)
Lemma get_dt_marketplace_store_failure_witness :
  let o := failing "store out of reach" (is_resolution_of "/ipfs/2")
             (answers granted) in
  o (ResolveAssetByUrl "/ipfs/2") = Failed "store out of reach" ∧
  o (ResolveAssetByUrl "/ipfs/1") = Returned (Some ddo1) ∧
  outcome o (get_dt_marketplace id_bytes_to_dt)
  = inl (CollaboratorError "store out of reach").
Proof.
  intros o. split; [reflexivity|]. split; [reflexivity|].
  unfold outcome.
  rewrite (get_dt_marketplace_store_failure id_bytes_to_dt o
             ["1"; "2"; "3"; "4"] [org1; org2; org3; org3]
             [proof_checksum (DDO.proof ddo1); proof_checksum (DDO.proof ddo2);
              proof_checksum (DDO.proof ddo3); proof_checksum (DDO.proof ddo4)]
             ["/ipfs/1"; "/ipfs/2"; "/ipfs/3"; "/ipfs/4"]
             ["org1"; "org2"; "org3"; "org3"]
             [("1", "org1", "/ipfs/1", proof_checksum (DDO.proof ddo1))]
             [("3", "org3", "/ipfs/3", proof_checksum (DDO.proof ddo3));
              ("4", "org3", "/ipfs/4", proof_checksum (DDO.proof ddo4))]
             ("2", "org2", "/ipfs/2", proof_checksum (DDO.proof ddo2))
             "store out of reach" eq_refl eq_refl eq_refl
             (first_row_smooth o eq_refl
                (λ checksum, ex_intro _ _ eq_refl)) eq_refl).
  reflexivity.
Defined.

(** The second token of the ledger has metadata without ['main']: the
    marketplace fails when it reaches it. *)
Lemma get_dt_marketplace_missing_main_witness :
  answers unsectioned (ResolveAssetByUrl "/ipfs/6") = Returned (Some ddo6) ∧
  DDO.metadata ddo6 !! "main" = None ∧
  run (answers unsectioned) (get_dt_marketplace id_bytes_to_dt)
  = ([GetAvailableDts; GetIssuerNames [org1; org1; org2];
      ResolveAssetByUrl "/ipfs/1";
      VerifyDdoIntegrity ddo1 (proof_checksum (DDO.proof ddo1));
      ResolveAssetByUrl "/ipfs/6"], inl (KeyError "main")).
Proof.
  split; [reflexivity|]. split; [reflexivity|].
  rewrite (get_dt_marketplace_missing_main id_bytes_to_dt (answers unsectioned)
             ["1"; "6"; "2"] [org1; org1; org2]
             [proof_checksum (DDO.proof ddo1); proof_checksum (DDO.proof ddo6);
              proof_checksum (DDO.proof ddo2)]
             ["/ipfs/1"; "/ipfs/6"; "/ipfs/2"] ["org1"; "org1"; "org2"]
             [("1", "org1", "/ipfs/1", proof_checksum (DDO.proof ddo1))]
             [("2", "org2", "/ipfs/2", proof_checksum (DDO.proof ddo2))]
             ("6", "org1", "/ipfs/6", proof_checksum (DDO.proof ddo6)) ddo6
             eq_refl eq_refl eq_refl
             (first_row_smooth (answers unsectioned) eq_refl
                (λ checksum, ex_intro _ _ eq_refl)) eq_refl eq_refl).
  reflexivity.
Defined.

(** The details of the union after the grants. *)
Lemma get_dt_details_shows_witness :
  ∃ service_lists,
    outcome (answers granted) (get_dt_details dt3)
    = inr (Some (info_of (minted ddo3).2.1
                   {[ "name" := VStr "data union"; "type" := VStr "Dataset" ]}
                   (VStr "org3"), service_lists,
                 VDict [(dt3, VNone)])) ∧
    ServiceInfo.sid <$> service_lists = Service.index <$> DDO.services ddo3 ∧
    ServiceInfo.constrains <$> service_lists
    = Service.descriptor <$> DDO.services ddo3 ∧
    Forall2 (λ service info,
               Service.attributes service !! "price"
               = Some (ServiceInfo.price info))
      (DDO.services ddo3) service_lists ∧
    (DDO.is_cdt ddo3 = false → VDict [(dt3, VNone)] = VNone).
Proof.
  apply (get_dt_details_shows (answers granted) dt3 (minted ddo3).2.1 ddo3
           (VStr "org3") []
           {[ "name" := VStr "data union"; "type" := VStr "Dataset" ]}
           (VDict [(dt3, VNone)])).
  - reflexivity.
  - vm_compute. reflexivity.
  - reflexivity.
  - reflexivity.
  - reflexivity.
  - constructor; [|constructor]. exists (VInt 20). reflexivity.
Defined.

Lemma get_dt_details_missing_price_witness :
  stray_service ∈ DDO.services ddo5 ∧
  Service.attributes stray_service !! "price" = None ∧
  outcome (answers unpriced) (get_dt_details dt5) = inl (KeyError "price").
Proof.
  split; [apply list_elem_of_further, list_elem_of_here|].
  split; [reflexivity|].
  apply (get_dt_details_missing_price (answers unpriced) dt5 (minted ddo5).2.1
           ddo5 (VStr "org1") []
           {[ "name" := VStr "dataset5"; "type" := VStr "Dataset" ]}
           VNone stray_service).
  - reflexivity.
  - vm_compute. reflexivity.
  - reflexivity.
  - reflexivity.
  - reflexivity.
  - apply list_elem_of_further, list_elem_of_here.
  - reflexivity.
Defined.

(** The details of the token whose metadata lack ['main']. *)
Lemma get_dt_details_missing_main_witness :
  DDO.metadata ddo6 !! "main" = None ∧
  run (answers unsectioned) (get_dt_details dt6)
  = ([ResolveAsset dt6;
      VerifyDdoIntegrity ddo6 (data_checksum (minted ddo6).2.1);
      GetEnterprise (data_issuer (minted ddo6).2.1)], inl (KeyError "main")).
Proof.
  split; [reflexivity|].
  apply (get_dt_details_missing_main (answers unsectioned) dt6
           (minted ddo6).2.1 ddo6 (VStr "org1") []).
  - reflexivity.
  - vm_compute. reflexivity.
  - reflexivity.
  - reflexivity.
Defined.

Lemma get_dt_details_no_enterprise_witness :
  anonymous (answers granted) (GetEnterprise org1) = Returned [] ∧
  run (anonymous (answers granted)) (get_dt_details dt1)
  = ([ResolveAsset dt1;
      VerifyDdoIntegrity ddo1 (data_checksum (minted ddo1).2.1);
      GetEnterprise (data_issuer (minted ddo1).2.1)], inl IndexError).
Proof.
  split; [reflexivity|].
  apply (get_dt_details_no_enterprise (anonymous (answers granted)) dt1
           (minted ddo1).2.1 ddo1).
  - reflexivity.
  - vm_compute. reflexivity.
  - reflexivity.
Defined.

(** The tracer is asked about the union, a composite. *)
Lemma get_dt_details_tracer_for_composite_witness :
  TraceDataUnion ddo3 [dt3] ∈ trace (answers granted) (get_dt_details dt3) ∧
  ∃ data ddo,
    answers granted (ResolveAsset dt3) = Returned (Some data, Some ddo) ∧
    answers granted (VerifyDdoIntegrity ddo (data_checksum data))
    = Returned true ∧
    DDO.is_cdt ddo = true.
Proof.
  assert (Hin : TraceDataUnion ddo3 [dt3]
                ∈ trace (answers granted) (get_dt_details dt3)).
  { apply list_elem_of_further, list_elem_of_further, list_elem_of_further,
      list_elem_of_here. }
  split; [exact Hin|].
  apply (get_dt_details_tracer_for_composite (answers granted) dt3
           (TraceDataUnion ddo3 [dt3]) Hin).
  reflexivity.
Defined.

(** The union, built with verification on while the datasets are
    published, is the document the verifier accepted. *)
Lemma generate_ddo_returns_accepted_witness :
  outcome (answers composing)
    (generate_ddo checksum_of (metadata_of "data union" "Dataset") [service3]
       org3 (Some [dt1; dt2]) true) = inr ddo3 ∧
  answers composing (VerifyServices ddo3 None None) = Returned true ∧
  ∃ new_dt,
    answers composing GenerateNewDt = Returned new_dt ∧
    ddo3 = assemble checksum_of (metadata_of "data union" "Dataset") [service3]
             org3 (Some [dt1; dt2]) new_dt ∧
    DDO.dt ddo3 = new_dt.
Proof.
  assert (Hgen : outcome (answers composing)
            (generate_ddo checksum_of (metadata_of "data union" "Dataset")
               [service3] org3 (Some [dt1; dt2]) true) = inr ddo3).
  { vm_compute. reflexivity. }
  split; [exact Hgen|].
  apply (generate_ddo_returns_accepted checksum_of (answers composing)
           (metadata_of "data union" "Dataset") [service3] org3
           (Some [dt1; dt2]) ddo3 Hgen).
Defined.

(** The union, built and then published as the tests do. *)
Lemma generate_ddo_then_publish_dt_witness :
  ∃ isLeaf,
    trace (answers composing)
      (ddo ← generate_ddo checksum_of (metadata_of "data union" "Dataset")
               [service3] org3 (Some [dt1; dt2]) true;
       publish_dt dt_to_id ddo "wallet3")
    = trace (answers composing)
        (generate_ddo checksum_of (metadata_of "data union" "Dataset")
           [service3] org3 (Some [dt1; dt2]) true) ++
      [IpfsAdd ddo3;
       MintDt (dt_to_id (DDO.dt ddo3)) org3 isLeaf
         (checksum_of
            (DDO.mk (DDO.dt ddo3) org3 (metadata_of "data union" "Dataset")
               [service3] (default [] (Some [dt1; dt2]))
               {| proof_checksum := "" |}))
         "/ipfs/3" "wallet3"] ∧
    (isLeaf = true ↔ Some [dt1; dt2] = None ∨ Some [dt1; dt2] = Some []) ∧
    answers composing GenerateNewDt = Returned (DDO.dt ddo3).
Proof.
  apply (generate_ddo_then_publish_dt dt_to_id checksum_of (answers composing)
           (metadata_of "data union" "Dataset") [service3] org3
           (Some [dt1; dt2]) true "wallet3" ddo3 "/ipfs/3").
  - vm_compute. reflexivity.
  - reflexivity.
Defined.

